(** * depth_estimator: the port selector and the inference wrapper

    A shallow embedding of [func.py] and [app.py].

    - Python [str] values are lists of Unicode code points, [bytes] values
      are lists of octets; both are carried by [Z].
    - [zlib.crc32] is the standard reflected CRC-32 (polynomial 0xEDB88320),
      written bit by bit.
    - Code that talks to the outside (torch, transformers, the file system,
      loguru, OpenCV, gradio) runs in a small monad that threads a trace of
      events and may raise a Python exception; what the outside answers is
      a record of oracles, so every theorem holds for every environment.
    - [Path.exists()] is pathlib's: it answers from [os.stat], hides the
      errors ENOENT, ENOTDIR, EBADF and ELOOP, and lets the others out.
    - A row of a depth image holds at least one pixel: on rows without
      pixels OpenCV's color mapping ends the process, which is no outcome
      of this monad. *)

From Stdlib Require Import ZArith String Ascii Bool Lia List.
Import ListNotations.
Local Open Scope Z_scope.

(** ** Python values shared by both modules *)

(** A Python [str]: the sequence of its code points (0 .. 0x10FFFF). *)
Definition str := list Z.

(** A Python [bytes]: octets 0 .. 255. *)
Definition bytes := list Z.

(** An ASCII literal of the source, as a [str]. *)
Definition lit (s : string) : str :=
  map (fun a => Z.of_N (N_of_ascii a)) (list_ascii_of_string s).

(** The outcome of a fallible computation: a value, or a raised exception. *)
Inductive result (E A : Type) : Type :=
| Ok (a : A)
| Raise (e : E).
Arguments Ok {E A} a.
Arguments Raise {E A} e.

(** ** func.py: port derivation *)

Module Port.

(** [UnicodeEncodeError] as the strict UTF-8 codec raises it: the slice
    [start, stop) of the offending run of surrogates in [object]. *)
Record UnicodeEncodeError : Type := MkUnicodeEncodeError {
  encoding : str;
  object : str;
  start : nat;
  stop : nat;
  reason : str
}.

Definition is_surrogate (c : Z) : bool := (0xD800 <=? c) && (c <=? 0xDFFF).

(** The UTF-8 octets of one code point that is not a surrogate. *)
Definition utf8_char (c : Z) : bytes :=
  if c <? 0x80 then [c]
  else if c <? 0x800 then
    [Z.lor 0xC0 (Z.shiftr c 6); Z.lor 0x80 (Z.land c 0x3F)]
  else if c <? 0x10000 then
    [Z.lor 0xE0 (Z.shiftr c 12);
     Z.lor 0x80 (Z.land (Z.shiftr c 6) 0x3F);
     Z.lor 0x80 (Z.land c 0x3F)]
  else
    [Z.lor 0xF0 (Z.shiftr c 18);
     Z.lor 0x80 (Z.land (Z.shiftr c 12) 0x3F);
     Z.lor 0x80 (Z.land (Z.shiftr c 6) 0x3F);
     Z.lor 0x80 (Z.land c 0x3F)].

(** Length of the run of surrogates at the head of [s]. *)
Fixpoint surrogate_run (s : str) : nat :=
  match s with
  | c :: rest => if is_surrogate c then S (surrogate_run rest) else O
  | [] => O
  end.

(** [whole.encode()] from position [pos] on, [s] being what is left. *)
Fixpoint encode_from (whole : str) (pos : nat) (s : str)
  : result UnicodeEncodeError bytes :=
  match s with
  | [] => Ok []
  | c :: rest =>
      if is_surrogate c then
        Raise (MkUnicodeEncodeError (lit "utf-8") whole pos
                 (pos + surrogate_run s) (lit "surrogates not allowed"))
      else
        match encode_from whole (S pos) rest with
        | Ok bs => Ok (utf8_char c ++ bs)
        | Raise e => Raise e
        end
  end.

(** [input_string.encode()]: UTF-8, error handler "strict". *)
Definition encode (input_string : str) : result UnicodeEncodeError bytes :=
  encode_from input_string O input_string.

(** One shift of the reflected CRC register. *)
Definition crc_shift (crc : Z) : Z :=
  if Z.testbit crc 0
  then Z.lxor (Z.shiftr crc 1) 0xEDB88320
  else Z.shiftr crc 1.

Definition crc_byte (crc b : Z) : Z :=
  Nat.iter 8 crc_shift (Z.lxor crc b).

(** [zlib.crc32(data)]: register preset to all ones, complemented at the
    end. *)
Definition zlib_crc32 (data : bytes) : Z :=
  Z.lxor (fold_left crc_byte data 0xFFFFFFFF) 0xFFFFFFFF.

Definition MIN_PORT : Z := 10000.
Definition MAX_PORT : Z := 60000.

Definition string_to_port_crc32 (input_string : str)
  : result UnicodeEncodeError Z :=
  match encode input_string with
  | Raise e => Raise e
  | Ok data =>
      let crc32_hash := Z.land (zlib_crc32 data) 0xFFFFFFFF in
      let port_number := MIN_PORT + crc32_hash mod (MAX_PORT - MIN_PORT) in
      Ok port_number
  end.

(** No code point of [s] is a surrogate: [s] is what the strict UTF-8 codec
    accepts. *)
Definition encodable (s : str) : bool :=
  forallb (fun c => negb (is_surrogate c)) s.

End Port.

(** ** The outside world *)

Module Runtime.

(** An instance of Python's [Exception], which is what [except Exception]
    handles: its class and [str(e)]. *)
Record Exception : Type := MkException {
  exc_type : str;
  exc_message : str
}.

Definition FileNotFoundError (msg : str) : Exception :=
  MkException (lit "FileNotFoundError") msg.
Definition KeyError (key : str) : Exception :=
  MkException (lit "KeyError") (lit "'" ++ key ++ lit "'").
Definition TypeError (msg : str) : Exception :=
  MkException (lit "TypeError") msg.

(** The error numbers [stat] documents. *)
Inductive Errno : Type :=
| EACCES | EBADF | EFAULT | EIO | ELOOP | ENAMETOOLONG | ENOENT | ENOMEM
| ENOTDIR | EOVERFLOW.

(** The subclass of [OSError] Python raises for an error number. *)
Definition OSError_class (errno : Errno) : str :=
  match errno with
  | ENOENT => lit "FileNotFoundError"
  | ENOTDIR => lit "NotADirectoryError"
  | EACCES => lit "PermissionError"
  | _ => lit "OSError"
  end.

(** The [OSError] raised for [errno], [message] being its [str(e)]. *)
Definition OSError (errno : Errno) (message : str) : Exception :=
  MkException (OSError_class errno) message.

Inductive FileKind : Type := RegularFile | Directory | OtherFile.

(** What [os.stat(path)] does: it finds an entry, or raises [OSError], or
    raises [ValueError] (a path that cannot be encoded). *)
Inductive StatOutcome : Type :=
| StatResult (kind : FileKind)
| StatOSError (errno : Errno) (message : str)
| StatValueError.

(** [torch.device]. *)
Inductive Device : Type := mps | cuda | cpu.

Definition Device_str (d : Device) : str :=
  match d with
  | mps => lit "mps"
  | cuda => lit "cuda"
  | cpu => lit "cpu"
  end.

(** [pathlib.Path]; [path_str p] is [str(p)]. *)
Record Path : Type := MkPath { path_str : str }.

(** What the source passes where [Union[str, Path]] is expected. *)
Inductive PathLike : Type :=
| OfStr (s : str)
| OfPath (p : Path).

(** A [transformers.Pipeline] object, by its handle. *)
Definition HFPipeline := nat.

(** A row of pixels: the first one and the others. *)
Definition Row := (Z * list Z)%type.

Definition pixels (row : Row) : list Z := fst row :: snd row.

(** An 8-bit single-channel image (PIL mode L): its rows. *)
Definition GrayImage := list Row.

(** The dict a depth-estimation pipeline returns. *)
Definition PipelineOutput := list (str * GrayImage).

(** A two-dimensional array of 8-bit values: its rows. *)
Definition ndarray2 := list Row.
Definition ndarray3 := list (list (list Z)).

Inductive Event : Type :=
| MpsIsAvailable
| CudaIsAvailable
| LogInfo (msg : str)
| LogError (msg : str)
| PipelineNew (task model : str) (device : Device)
| PipelineRun (p : HFPipeline) (arg : str)
| GradioBlocks (title : str)
| Queue
| Launch (server_name : str) (server_port : Z).

Definition Trace := list Event.

(** What the environment answers, given what has happened so far. *)
Record Env : Type := MkEnv {
  normalize : str -> str;
  os_stat : Trace -> Path -> StatOutcome;
  mps_is_available : Trace -> bool;
  cuda_is_available : Trace -> bool;
  transformers_pipeline :
    Trace -> str -> str -> Device -> result Exception HFPipeline;
  pipeline_run : Trace -> HFPipeline -> str -> result Exception PipelineOutput;
  colormap_inferno : Z -> Z * Z * Z
}.

(** The events so far and the number of [DepthAnythingPipeline] objects
    created so far. *)
Record World : Type := MkWorld {
  trace : Trace;
  allocated : nat
}.

Definition M (A : Type) : Type := World -> result Exception A * World.

Definition ret {A} (a : A) : M A := fun w => (Ok a, w).

Definition bind {A B} (m : M A) (k : A -> M B) : M B :=
  fun w =>
    match m w with
    | (Ok a, w') => k a w'
    | (Raise e, w') => (Raise e, w')
    end.

Definition raise {A} (e : Exception) : M A := fun w => (Raise e, w).

(** [try: body  except Exception as e: handler e]. *)
Definition try_except {A} (body : M A) (handler : Exception -> M A) : M A :=
  fun w =>
    match body w with
    | (Ok a, w') => (Ok a, w')
    | (Raise e, w') => handler e w'
    end.

Definition emit (e : Event) : M unit :=
  fun w => (Ok tt, MkWorld (trace w ++ [e]) (allocated w)).

Definition ask {A} (oracle : Trace -> A) : M A :=
  fun w => (Ok (oracle (trace w)), w).

Definition lift {A} (r : result Exception A) : M A := fun w => (r, w).

Definition new_object : M nat :=
  fun w => (Ok (allocated w), MkWorld (trace w) (S (allocated w))).

Definition logger_info (msg : str) : M unit := emit (LogInfo msg).
Definition logger_error (msg : str) : M unit := emit (LogError msg).

(** [Path(x)]. *)
Definition Path_ (env : Env) (x : PathLike) : Path :=
  match x with
  | OfStr s => MkPath (normalize env s)
  | OfPath p => p
  end.

(** pathlib's [_ignore_error]. *)
Definition ignore_error (errno : Errno) : bool :=
  match errno with
  | ENOENT | ENOTDIR | EBADF | ELOOP => true
  | _ => false
  end.

(** What [path.exists()] does when the events so far are [t]. *)
Definition path_exists (env : Env) (t : Trace) (path : Path)
  : result Exception bool :=
  match os_stat env t path with
  | StatResult _ => Ok true
  | StatOSError errno message =>
      if ignore_error errno then Ok false else Raise (OSError errno message)
  | StatValueError => Ok false
  end.

(** [path.exists()]. *)
Definition Path_exists (env : Env) (path : Path) : M bool :=
  fun w => (path_exists env (trace w) path, w).

(** [str(x)], as an f-string renders it. *)
Definition format_pathlike (x : PathLike) : str :=
  match x with
  | OfStr s => s
  | OfPath p => path_str p
  end.

End Runtime.

Declare Scope py_scope.
Delimit Scope py_scope with py.
Notation "x <- m ;; k" := (Runtime.bind m (fun x => k))
  (at level 61, m at next level, right associativity) : py_scope.
Notation "m ;;; k" := (Runtime.bind m (fun _ => k))
  (at level 61, right associativity) : py_scope.

(** ** func.py: device selection and the depth-estimation wrapper *)

Module Func.
Import Runtime.
Local Open Scope py_scope.

Definition DEFAULT_MODEL_ID : str := lit "LiheYoung/depth-anything-large-hf".

Section WithEnv.
Variable env : Env.

(** [torch.backends.mps.is_available()]. *)
Definition torch_backends_mps_is_available : M bool :=
  r <- ask (mps_is_available env) ;;
  emit MpsIsAvailable ;;;
  ret r.

(** [torch.cuda.is_available()]. *)
Definition torch_cuda_is_available : M bool :=
  r <- ask (cuda_is_available env) ;;
  emit CudaIsAvailable ;;;
  ret r.

(** [transformers.pipeline(task=..., model=..., device=...)]. *)
Definition pipeline (task model : str) (device : Device) : M HFPipeline :=
  r <- ask (fun t => transformers_pipeline env t task model device) ;;
  emit (PipelineNew task model device) ;;;
  lift r.

(** [depth_pipeline(arg)]. *)
Definition run (depth_pipeline : HFPipeline) (arg : str) : M PipelineOutput :=
  r <- ask (fun t => pipeline_run env t depth_pipeline arg) ;;
  emit (PipelineRun depth_pipeline arg) ;;;
  lift r.

Definition set_device : M Device :=
  is_mps <- torch_backends_mps_is_available ;;
  device <- (if is_mps then ret mps
             else is_cuda <- torch_cuda_is_available ;;
                  ret (if is_cuda then cuda else cpu)) ;;
  logger_info (lit "Using device: " ++ Device_str device) ;;;
  ret device.

(** An instance of class [DepthAnythingPipeline]. *)
Record DepthAnythingPipeline : Type := MkDepthAnythingPipeline {
  object_id : nat;
  model_id : str;
  device : Device
}.

(** [DepthAnythingPipeline(model_id)]. *)
Definition __init__ (model_id : str) : M DepthAnythingPipeline :=
  self_id <- new_object ;;
  device <- set_device ;;
  ret (MkDepthAnythingPipeline self_id model_id device).

Definition validate_image_path (image_path : PathLike) : M Path :=
  let path := Path_ env image_path in
  found <- Path_exists env path ;;
  if negb found then
    raise (FileNotFoundError
             (lit "Image file " ++ path_str path ++ lit " not found."))
  else ret path.

Definition setup_pipeline (self : DepthAnythingPipeline) : M HFPipeline :=
  try_except
    (depth_pipeline <-
       pipeline (lit "depth-estimation") (model_id self) (device self) ;;
     logger_info (lit "Model loaded successfully.") ;;;
     ret depth_pipeline)
    (fun e =>
       logger_error (lit "Failed to load model: " ++ exc_message e) ;;;
       raise e).

Definition __call__ (self : DepthAnythingPipeline) (image_path : PathLike)
  : M PipelineOutput :=
  path <- validate_image_path image_path ;;
  depth_pipeline <- setup_pipeline self ;;
  run depth_pipeline (path_str path).

End WithEnv.

End Func.

(** ** app.py: the presentation adapter and the entry point *)

Module App.
Import Runtime.
Local Open Scope py_scope.

Definition LOCAL_CLIENT_IP : str := lit "0.0.0.0".
Definition APP_NAME : str := lit "depth_estimator".
Definition DEFAULT_PORT : result Port.UnicodeEncodeError Z :=
  Port.string_to_port_crc32 APP_NAME.

Definition str_eqb (a b : str) : bool :=
  if list_eq_dec Z.eq_dec a b then true else false.

(** [d[key]] on a dict. *)
Fixpoint getitem (d : PipelineOutput) (key : str) : result Exception GrayImage :=
  match d with
  | [] => Raise (KeyError key)
  | (k, v) :: rest => if str_eqb k key then Ok v else getitem rest key
  end.

(** [np.array(image)] of an 8-bit single-channel image. *)
Definition np_array (image : GrayImage) : ndarray2 := image.

(** What the second element of the handler's tuple can be. *)
Inductive SliderValue : Type :=
| DepthMap (image : ndarray3)
| Message (text : str).

(** [a[:, :, ::-1]], where [a] is an array or [None]. *)
Definition reverse_channels (a : option ndarray3) : result Exception ndarray3 :=
  match a with
  | Some a => Ok (map (map (@rev Z)) a)
  | None => Raise (TypeError (lit "'NoneType' object is not subscriptable"))
  end.

(** The [gr.Blocks] page: its title, its button and the button's handler. *)
Record Blocks : Type := MkBlocks {
  title : str;
  button : str;
  fn : str -> M (str * SliderValue)
}.

(** The button pressed once per upload, each time with a file uploaded, one
    press after the other: each press runs the handler wired to the
    button of [demo]. *)
Fixpoint presses (demo : Blocks) (uploads : list str)
  : M (list (str * SliderValue)) :=
  match uploads with
  | [] => ret []
  | image_fp :: rest =>
      shown <- fn demo image_fp ;;
      others <- presses demo rest ;;
      ret (shown :: others)
  end.

Section WithEnv.
Variable env : Env.

(** [cv2.applyColorMap(src, cv2.COLORMAP_INFERNO)] on an 8-bit
    single-channel array: every pixel becomes its (B, G, R) table entry;
    for a source without rows the call returns [None]. *)
Definition cv2_applyColorMap (src : ndarray2) : M (option ndarray3) :=
  match src with
  | [] => ret None
  | _ :: _ =>
      ret (Some (map (fun row =>
                        map (fun v => let '(b, g, r) := colormap_inferno env v in
                                      [b; g; r]) (pixels row)) src))
  end.

Definition estimate_depth (image_path : PathLike) : M ndarray3 :=
  pipeline <- Func.__init__ env Func.DEFAULT_MODEL_ID ;;
  logger_info (lit "Estimating depth for image: "
                 ++ format_pathlike image_path) ;;;
  output <- Func.__call__ env pipeline image_path ;;
  depth_image <- lift (getitem output (lit "depth")) ;;
  let depth := np_array depth_image in
  colored <- cv2_applyColorMap depth ;;
  lift (reverse_channels colored).

Definition estimate_depth_wrapper (image_fp : str) : M (str * SliderValue) :=
  try_except
    (depth <- estimate_depth (OfPath (Path_ env (OfStr image_fp))) ;;
     ret (image_fp, DepthMap depth))
    (fun e =>
       ret (image_fp, Message (lit "Error during estimation: "
                                 ++ exc_message e))).

Definition model_init_wrapper : M ndarray3 :=
  estimate_depth (OfStr (lit "/workspace/ice-festival.webp")).

Definition setup_gradio_interface : M Blocks :=
  emit (GradioBlocks (lit "DepthEstimator")) ;;;
  ret (MkBlocks (lit "DepthEstimator") (lit "Estimate!")
         estimate_depth_wrapper).

(** The [__main__] block, after the module body has bound
    [DEFAULT_PORT]. *)
Definition main : result Port.UnicodeEncodeError (M unit) :=
  match DEFAULT_PORT with
  | Raise e => Raise e
  | Ok port =>
      Ok (demo <- setup_gradio_interface ;;
          emit Queue ;;;
          emit (Launch LOCAL_CLIENT_IP port))
  end.

End WithEnv.

End App.

(** ** What is observed of a run *)

Module Observe.
Import Runtime.

Definition is_PipelineNew (e : Event) : bool :=
  match e with PipelineNew _ _ _ => true | _ => false end.

Definition is_MpsIsAvailable (e : Event) : bool :=
  match e with MpsIsAvailable => true | _ => false end.

(** How many times [transformers.pipeline] was called in [t]. *)
Definition constructions (t : Trace) : nat :=
  length (filter is_PipelineNew t).

(** How many times [set_device] ran in [t]: it asks for mps once, first. *)
Definition device_selections (t : Trace) : nat :=
  length (filter is_MpsIsAvailable t).

Fixpoint startswith (s word : str) {struct word} : bool :=
  match word, s with
  | [], _ => true
  | a :: word', b :: s' => (a =? b) && startswith s' word'
  | _ :: _, [] => false
  end.

(** [word in s]. *)
Fixpoint contains (s word : str) : bool :=
  startswith s word ||
  match s with
  | [] => false
  | _ :: s' => contains s' word
  end.

(** [a.shape] of a rectangular array with at least one row. *)
Definition shape2 (a : ndarray2) : nat * nat :=
  (length a,
   match a with
   | [] => O
   | row :: _ => length (pixels row)
   end).

Definition shape3 (a : ndarray3) : nat * nat * nat :=
  (length a, length (hd [] a), length (hd [] (hd [] a))).

(** Every row of [a] has [w] pixels. *)
Definition rows_of_width (w : nat) (a : ndarray2) : Prop :=
  Forall (fun row => length (pixels row) = w) a.

(** Every row of [a] has [w] pixels of [c] channels. *)
Definition rows_of_width3 (w c : nat) (a : ndarray3) : Prop :=
  Forall (fun row => length row = w /\ Forall (fun px => length px = c) row) a.

(** What [set_device] answers when the events so far are [t]. *)
Definition selected_device (env : Env) (t : Trace) : Device :=
  if mps_is_available env t then mps
  else if cuda_is_available env (t ++ [MpsIsAvailable]) then cuda
  else cpu.

(** What [set_device] does when the events so far are [t]. *)
Definition selection_events (env : Env) (t : Trace) : Trace :=
  (if mps_is_available env t then [MpsIsAvailable]
   else [MpsIsAvailable; CudaIsAvailable])
  ++ [LogInfo (lit "Using device: " ++ Device_str (selected_device env t))].

(** The object [estimate_depth] creates when started in [w]. *)
Definition created (env : Env) (w : World) : Func.DepthAnythingPipeline :=
  Func.MkDepthAnythingPipeline (allocated w) Func.DEFAULT_MODEL_ID
    (selected_device env (trace w)).

(** The world in which [estimate_depth], started in [w], calls the object
    it has created. *)
Definition at_call (env : Env) (image_path : PathLike) (w : World) : World :=
  MkWorld
    (trace w ++ selection_events env (trace w)
       ++ [LogInfo (lit "Estimating depth for image: "
                      ++ format_pathlike image_path)])
    (S (allocated w)).

(** The (R, G, B) pixel shown for the depth value [v]. *)
Definition inferno_rgb (env : Env) (v : Z) : list Z :=
  let '(b, g, r) := colormap_inferno env v in [r; g; b].

(** The image shown for the depth map [depth]. *)
Definition color_image (env : Env) (depth : ndarray2) : ndarray3 :=
  map (fun row => map (inferno_rgb env) (pixels row)) depth.

(** [os.stat] finds an entry at [path]: the path exists on disk. *)
Definition on_disk (env : Env) (t : Trace) (path : Path) : bool :=
  match os_stat env t path with
  | StatResult _ => true
  | _ => false
  end.

(** [path] resolves to an existing regular file. *)
Definition resolves_to_file (env : Env) (t : Trace) (path : Path) : bool :=
  match os_stat env t path with
  | StatResult RegularFile => true
  | _ => false
  end.

(** The text of the [FileNotFoundError] raised for [path]. *)
Definition not_found_message (path : Path) : str :=
  lit "Image file " ++ path_str path ++ lit " not found.".

(** The event of building the pipeline of [self]. *)
Definition built (self : Func.DepthAnythingPipeline) : Event :=
  PipelineNew (lit "depth-estimation") (Func.model_id self) (Func.device self).

(** [env] with [transformers.pipeline] replaced by [probe]. *)
Definition with_construction_probe (env : Env)
  (probe : Trace -> str -> str -> Device -> result Exception HFPipeline)
  : Env :=
  MkEnv (normalize env) (os_stat env) (mps_is_available env)
    (cuda_is_available env) probe (pipeline_run env)
    (colormap_inferno env).

(** A code point a [str] can hold. *)
Definition is_code_point (c : Z) : bool := (0 <=? c) && (c <=? 0x10FFFF).

(** A value a [bytes] can hold. *)
Definition is_octet (b : Z) : bool := (0 <=? b) && (b <? 256).

(** The index of the first surrogate of [s], or its length if it has none. *)
Fixpoint first_surrogate (s : str) : nat :=
  match s with
  | [] => O
  | c :: rest => if Port.is_surrogate c then O else S (first_surrogate rest)
  end.

(** An unsigned 32-bit value. *)
Definition in_32_bits (x : Z) : Prop := 0 <= x < 2 ^ 32.

Definition is_LogError (e : Event) : bool :=
  match e with LogError _ => true | _ => false end.

Definition is_PipelineRun (e : Event) : bool :=
  match e with PipelineRun _ _ => true | _ => false end.

(** How many error entries were logged in [t]. *)
Definition errors_logged (t : Trace) : nat :=
  length (filter is_LogError t).

(** How many times a pipeline was run on an image in [t]. *)
Definition inferences (t : Trace) : nat :=
  length (filter is_PipelineRun t).

(** The events of building the pipeline of [self] with success. *)
Definition loaded (self : Func.DepthAnythingPipeline) : Trace :=
  [built self; LogInfo (lit "Model loaded successfully.")].

(** The events of failing with [e] to build the pipeline of [self]. *)
Definition load_failed (self : Func.DepthAnythingPipeline) (e : Exception)
  : Trace :=
  [built self; LogError (lit "Failed to load model: " ++ exc_message e)].

(** What [estimate_depth] has done once its pipeline [p] has run. *)
Definition after_inference (env : Env) (image_path : PathLike) (w : World)
  (p : HFPipeline) : World :=
  MkWorld
    (trace w
     ++ selection_events env (trace w)
     ++ [LogInfo (lit "Estimating depth for image: "
                    ++ format_pathlike image_path);
         PipelineNew (lit "depth-estimation") Func.DEFAULT_MODEL_ID
           (selected_device env (trace w));
         LogInfo (lit "Model loaded successfully.");
         PipelineRun p (path_str (Path_ env image_path))])
    (S (allocated w)).

(** [env] with the answer of every pipeline replaced by [answer]. *)
Definition with_pipeline_answer (env : Env)
  (answer : result Exception PipelineOutput) : Env :=
  MkEnv (normalize env) (os_stat env) (mps_is_available env)
    (cuda_is_available env) (transformers_pipeline env)
    (fun _ _ _ => answer)
    (colormap_inferno env).

End Observe.

(** ** Environments to run the model in *)

Module Samples.
Import Runtime.

Definition cat_png : str := lit "/tmp/cat.png".
Definition missing_png : str := lit "/tmp/missing.png".

Definition depth_2x3 : GrayImage := [(0, [128; 255]); (7, [7; 64])].

(** The directory /tmp. *)
Definition tmp_dir : str := lit "/tmp".

(** /tmp/aaa...a, with 300 times the letter a. *)
Definition too_long : str := lit "/tmp/" ++ repeat 97 300.

(** What [os.stat] answers on the laptop: [cat_png] is a file, [tmp_dir] a
    directory, the name of [too_long] is too long, and nothing else is
    there. *)
Definition laptop_stat (path : Path) : StatOutcome :=
  if App.str_eqb (path_str path) cat_png then StatResult RegularFile
  else if App.str_eqb (path_str path) tmp_dir then StatResult Directory
  else if App.str_eqb (path_str path) too_long then
    StatOSError ENAMETOOLONG
      (lit "[Errno 36] File name too long: '" ++ too_long ++ lit "'")
  else
    StatOSError ENOENT
      (lit "[Errno 2] No such file or directory: '" ++ path_str path ++ lit "'").

Definition grey_table (v : Z) : Z * Z * Z := (v, (v + 1) mod 256, 255 - v).

(** No accelerator; the disk of [laptop_stat]; the model loads and always
    answers [depth_2x3]. *)
Definition laptop : Env :=
  MkEnv (fun s => s)
    (fun _ => laptop_stat)
    (fun _ => false)
    (fun _ => false)
    (fun _ _ _ _ => Ok 7%nat)
    (fun _ _ _ => Ok [(lit "predicted_depth", []); (lit "depth", depth_2x3)])
    grey_table.

Definition connection_error : Exception :=
  MkException (lit "OSError") (lit "We couldn't connect to huggingface.co").

(** As [laptop], but the model cannot be fetched. *)
Definition offline : Env :=
  Observe.with_construction_probe laptop (fun _ _ _ _ => Raise connection_error).

Definition fresh : World := MkWorld [] 0.

(** Where [offline] stands after one failed estimation for [cat_png]. *)
Definition offline_failed : World :=
  MkWorld
    [MpsIsAvailable; CudaIsAvailable;
     LogInfo (lit "Using device: cpu");
     LogInfo (lit "Estimating depth for image: /tmp/cat.png");
     PipelineNew (lit "depth-estimation") Func.DEFAULT_MODEL_ID cpu;
     LogError (lit "Failed to load model: We couldn't connect to huggingface.co")]
    1.

Definition a_pipeline : Func.DepthAnythingPipeline :=
  Func.MkDepthAnythingPipeline 0 Func.DEFAULT_MODEL_ID cpu.

Definition out_of_memory : Exception :=
  MkException (lit "RuntimeError") (lit "out of memory").

(** As [laptop], but every pipeline fails on its image. *)
Definition crashing : Env :=
  Observe.with_pipeline_answer laptop (Raise out_of_memory).

(** As [laptop], but the pipelines answer a depth map without rows. *)
Definition rowless : Env :=
  Observe.with_pipeline_answer laptop (Ok [(lit "depth", [])]).

(** As [laptop], but the pipelines answer without a "depth" entry. *)
Definition depthless : Env :=
  Observe.with_pipeline_answer laptop (Ok [(lit "predicted_depth", depth_2x3)]).

End Samples.

(** * Properties of the port selector *)

Module PortFacts.
Import Port.

Lemma encode_from_encodable (whole s : str) :
  encodable s = true ->
  forall pos, exists data, encode_from whole pos s = Ok data.
Proof.
  induction s as [|c rest IH]; intros Henc pos.
  - exists []. reflexivity.
  - simpl in Henc. apply andb_true_iff in Henc as [Hc Hrest].
    apply negb_true_iff in Hc.
    destruct (IH Hrest (S pos)) as [bs Hbs].
    exists (utf8_char c ++ bs). simpl. now rewrite Hc, Hbs.
Qed.

Lemma crc32_hash_range (x : Z) : 0 <= Z.land x 0xFFFFFFFF < 2 ^ 32.
Proof.
  split.
  - apply Z.land_nonneg. right. lia.
  - assert (H : Z.land x 0xFFFFFFFF = x mod 2 ^ 32).
    { change 0xFFFFFFFF with (Z.ones 32). now rewrite Z.land_ones by lia. }
    rewrite H. apply Z.mod_pos_bound. lia.
Qed.

Lemma port_of_bytes_range (data : bytes) :
  MIN_PORT <=
    MIN_PORT + Z.land (zlib_crc32 data) 0xFFFFFFFF mod (MAX_PORT - MIN_PORT)
  < MAX_PORT.
Proof.
  pose proof (Z.mod_pos_bound (Z.land (zlib_crc32 data) 0xFFFFFFFF)
                (MAX_PORT - MIN_PORT)) as Hmod.
  unfold MIN_PORT, MAX_PORT in *. lia.
Qed.

Lemma string_to_port_crc32_returns (s : str) :
  encodable s = true ->
  exists p, string_to_port_crc32 s = Ok p /\ MIN_PORT <= p < MAX_PORT.
Proof.
  intros Henc.
  destruct (encode_from_encodable s s Henc O) as [data Hdata].
  unfold string_to_port_crc32, encode. rewrite Hdata.
  eexists. split; [reflexivity | apply port_of_bytes_range].
Qed.

(** C1 (as amended). Two calls of [string_to_port_crc32] on the same
    string have the same outcome, and on every non-empty string without a
    surrogate code point the call returns an integer of [10000, 60000). *)
Theorem string_to_port_crc32_stable (S : str) :
  (forall r1 r2,
      string_to_port_crc32 S = r1 -> string_to_port_crc32 S = r2 -> r1 = r2)
  /\ (S <> [] -> encodable S = true ->
      exists p, string_to_port_crc32 S = Ok p /\ 10000 <= p < 60000).
Proof.
  split.
  - intros r1 r2 H1 H2. now rewrite <- H1, <- H2.
  - intros _ Henc. exact (string_to_port_crc32_returns S Henc).
Qed.

Lemma string_to_port_crc32_stable_witness :
  lit "depth" <> [] /\ encodable (lit "depth") = true /\
  exists p, string_to_port_crc32 (lit "depth") = Ok p /\ 10000 <= p < 60000.
Proof.
  split; [discriminate | split; [reflexivity |]].
  apply (proj2 (string_to_port_crc32_stable (lit "depth"))).
  - discriminate.
  - reflexivity.
Defined.

(** C1 fails as stated: the one-character string U+D800 is not empty, and
    the call raises [UnicodeEncodeError] instead of returning a port. *)
Lemma string_to_port_crc32_lone_surrogate :
  [0xD800] <> [] /\
  string_to_port_crc32 [0xD800] =
    Raise (MkUnicodeEncodeError (lit "utf-8") [0xD800] 0 1
             (lit "surrogates not allowed"))
  /\ ~ (forall S : str,
          S <> [] ->
          exists p, string_to_port_crc32 S = Ok p /\ 10000 <= p < 60000).
Proof.
  split; [discriminate | split; [reflexivity |]].
  intros Hall. destruct (Hall [0xD800]) as (p & Hp & _); discriminate.
Qed.

(** C10 (as amended). On every string without a surrogate code point, the
    empty string included, [string_to_port_crc32] returns an integer of
    [10000, 60000); the CRC-32 of no bytes is 0 and the port of the empty
    string is 10000. *)
Theorem string_to_port_crc32_total (S : str) (Henc : encodable S = true) :
  (exists p, string_to_port_crc32 S = Ok p /\ 10000 <= p < 60000)
  /\ zlib_crc32 [] = 0
  /\ string_to_port_crc32 [] = Ok 10000.
Proof.
  split; [exact (string_to_port_crc32_returns S Henc) | split; reflexivity].
Qed.

Lemma string_to_port_crc32_total_witness :
  encodable [] = true /\
  (exists p, string_to_port_crc32 [] = Ok p /\ 10000 <= p < 60000)
  /\ zlib_crc32 [] = 0
  /\ string_to_port_crc32 [] = Ok 10000.
Proof.
  split; [reflexivity | apply (string_to_port_crc32_total []); reflexivity].
Defined.

(** C10 fails as stated: on the string "a" followed by U+DFFF the call
    raises [UnicodeEncodeError], so it is not total over all strings. *)
Lemma string_to_port_crc32_not_total :
  string_to_port_crc32 [0x61; 0xDFFF] =
    Raise (MkUnicodeEncodeError (lit "utf-8") [0x61; 0xDFFF] 1 2
             (lit "surrogates not allowed"))
  /\ ~ (forall S : str,
          exists p, string_to_port_crc32 S = Ok p /\ 10000 <= p < 60000).
Proof.
  split; [reflexivity |].
  intros Hall. destruct (Hall [0x61; 0xDFFF]) as (p & Hp & _); discriminate.
Qed.

End PortFacts.

(** * Properties of the depth-estimation wrapper *)

Module FuncFacts.
Import Runtime Func Observe.

(** Run the monad's plumbing in the goal. *)
Ltac run_py :=
  unfold set_device, __init__, validate_image_path, setup_pipeline, __call__,
    torch_backends_mps_is_available, torch_cuda_is_available, pipeline, run,
    logger_info, logger_error, new_object, try_except, bind, ret, raise,
    emit, ask, lift, Path_exists;
  cbn [trace allocated fst snd].

Lemma set_device_runs (env : Env) (w : World) :
  let t := trace w in
  let is_mps := mps_is_available env t in
  let is_cuda := cuda_is_available env (t ++ [MpsIsAvailable]) in
  let d := if is_mps then mps else if is_cuda then cuda else cpu in
  let probes :=
    if is_mps then [MpsIsAvailable] else [MpsIsAvailable; CudaIsAvailable] in
  set_device env w =
    (Ok d,
     MkWorld (t ++ probes ++ [LogInfo (lit "Using device: " ++ Device_str d)])
       (allocated w)).
Proof.
  run_py.
  destruct (mps_is_available env (trace w)); cbn [trace allocated].
  - now rewrite <- app_assoc.
  - destruct (cuda_is_available env (trace w ++ [MpsIsAvailable]));
      now rewrite <- !app_assoc.
Qed.

(** C7. [set_device] asks for mps first, for cuda only when mps is not
    available, and answers the first one available, else cpu; it always
    returns, and with no accelerator available it returns cpu. *)
Theorem set_device_preference_order (env : Env) (w : World) :
  let t := trace w in
  let is_mps := mps_is_available env t in
  let is_cuda := cuda_is_available env (t ++ [MpsIsAvailable]) in
  let d := if is_mps then mps else if is_cuda then cuda else cpu in
  let probes :=
    if is_mps then [MpsIsAvailable] else [MpsIsAvailable; CudaIsAvailable] in
  set_device env w =
    (Ok d,
     MkWorld (t ++ probes ++ [LogInfo (lit "Using device: " ++ Device_str d)])
       (allocated w))
  /\ (is_mps = false -> is_cuda = false ->
      exists w', set_device env w = (Ok cpu, w')).
Proof.
  cbv zeta. split; [apply set_device_runs |].
  intros Hmps Hcuda. pose proof (set_device_runs env w) as Hrun.
  cbv zeta in Hrun. rewrite Hmps, Hcuda in Hrun. eauto.
Qed.

Lemma set_device_preference_order_witness :
  mps_is_available Samples.laptop [] = false /\
  cuda_is_available Samples.laptop [MpsIsAvailable] = false /\
  exists w', set_device Samples.laptop Samples.fresh = (Ok cpu, w').
Proof.
  split; [reflexivity | split; [reflexivity |]].
  apply (proj2 (set_device_preference_order Samples.laptop Samples.fresh));
    reflexivity.
Defined.

Lemma validate_image_path_runs (env : Env) (image_path : PathLike) (w : World) :
  validate_image_path env image_path w =
    match path_exists env (trace w) (Path_ env image_path) with
    | Ok true => (Ok (Path_ env image_path), w)
    | Ok false =>
        (Raise (FileNotFoundError
                  (not_found_message (Path_ env image_path))), w)
    | Raise e => (Raise e, w)
    end.
Proof.
  run_py.
  now destruct (path_exists env (trace w) (Path_ env image_path)) as [[|]|e].
Qed.

(** What [Path.exists()] lets out is never a [FileNotFoundError]. *)
Lemma path_exists_raises (env : Env) (t : Trace) (path : Path) (e : Exception) :
  path_exists env t path = Raise e ->
  exc_type e <> lit "FileNotFoundError"
  /\ exists errno message,
       os_stat env t path = StatOSError errno message
       /\ ignore_error errno = false
       /\ e = OSError errno message.
Proof.
  unfold path_exists.
  destruct (os_stat env t path) as [kind|errno message|]; try discriminate.
  destruct (ignore_error errno) eqn:Hignore; [discriminate |].
  intros [= <-]. split; [| now exists errno, message].
  destruct errno; cbn in Hignore; try discriminate; cbn; discriminate.
Qed.

Lemma path_exists_true (env : Env) (t : Trace) (path : Path) :
  path_exists env t path = Ok true <-> on_disk env t path = true.
Proof.
  unfold path_exists, on_disk.
  destruct (os_stat env t path) as [kind|errno message|];
    [tauto | | split; discriminate].
  destruct (ignore_error errno); split; discriminate.
Qed.

(** C5 (as amended). [validate_image_path] raises [FileNotFoundError]
    exactly when [Path(image_path).exists()] answers False; when it answers
    True, which it does for whatever entry [os.stat] finds, a directory
    included, the function returns [Path(image_path)]; when it raises, which
    it does for the errors of [os.stat] other than ENOENT, ENOTDIR, EBADF
    and ELOOP, the function raises that error, which is no
    [FileNotFoundError]; either way nothing else happens. *)
Theorem validate_image_path_iff (env : Env) (image_path : PathLike) (w : World) :
  let path := Path_ env image_path in
  let answer := path_exists env (trace w) path in
  (answer = Ok false <->
   exists msg w',
     validate_image_path env image_path w = (Raise (FileNotFoundError msg), w'))
  /\ (answer = Ok false ->
      validate_image_path env image_path w =
        (Raise (FileNotFoundError (not_found_message path)), w))
  /\ (answer = Ok true ->
      validate_image_path env image_path w = (Ok path, w))
  /\ (forall p w',
        validate_image_path env image_path w = (Ok p, w') ->
        p = path /\ w' = w)
  /\ (forall e,
        answer = Raise e ->
        validate_image_path env image_path w = (Raise e, w)
        /\ exc_type e <> lit "FileNotFoundError")
  /\ (answer = Ok true <-> on_disk env (trace w) path = true).
Proof.
  cbv zeta. rewrite validate_image_path_runs.
  pose proof (path_exists_raises env (trace w) (Path_ env image_path)) as Hraises.
  pose proof (path_exists_true env (trace w) (Path_ env image_path)) as Htrue.
  destruct (path_exists env (trace w) (Path_ env image_path)) as [[|]|e].
  - repeat split; try discriminate; try congruence; try apply Htrue.
    intros (msg & w' & H). discriminate.
  - repeat split; try discriminate; try congruence; try apply Htrue.
    intros _. eauto.
  - destruct (Hraises e eq_refl) as [Hclass _].
    repeat split; try discriminate; try congruence; try apply Htrue.
    intros (msg & w' & [= -> _]). exfalso. now apply Hclass.
Qed.

Lemma validate_image_path_iff_witness :
  path_exists Samples.laptop [] (Path_ Samples.laptop (OfStr Samples.missing_png))
    = Ok false /\
  exists msg w',
    validate_image_path Samples.laptop (OfStr Samples.missing_png) Samples.fresh
    = (Raise (FileNotFoundError msg), w').
Proof.
  split; [reflexivity |].
  apply (proj1 (proj1 (validate_image_path_iff Samples.laptop
                         (OfStr Samples.missing_png) Samples.fresh))).
  reflexivity.
Defined.

(** C5 fails as stated, both ways: /tmp resolves to a directory and to no
    file, yet the function returns it; and the over-long name resolves to
    no file, yet what is raised is the [OSError] of [os.stat], not a
    [FileNotFoundError]. *)
Lemma validate_image_path_directory_and_long_name :
  (resolves_to_file Samples.laptop []
     (Path_ Samples.laptop (OfStr Samples.tmp_dir)) = false
   /\ validate_image_path Samples.laptop (OfStr Samples.tmp_dir) Samples.fresh
      = (Ok (MkPath Samples.tmp_dir), Samples.fresh))
  /\ (resolves_to_file Samples.laptop []
        (Path_ Samples.laptop (OfStr Samples.too_long)) = false
      /\ validate_image_path Samples.laptop (OfStr Samples.too_long)
           Samples.fresh
         = (Raise (MkException (lit "OSError")
                     (lit "[Errno 36] File name too long: '"
                        ++ Samples.too_long ++ lit "'")),
            Samples.fresh)).
Proof. repeat split; vm_compute; reflexivity. Qed.

Lemma startswith_app (word rest : str) : startswith (word ++ rest) word = true.
Proof.
  induction word as [|a word IH]; [reflexivity |].
  cbn. now rewrite Z.eqb_refl, IH.
Qed.

Lemma contains_app (pre rest word : str) :
  contains (pre ++ word ++ rest) word = true.
Proof.
  induction pre as [|a pre IH].
  - cbn [app]. destruct (word ++ rest) eqn:E; cbn [contains];
      rewrite <- E, startswith_app; reflexivity.
  - cbn [app contains]. rewrite IH. apply orb_true_r.
Qed.

Lemma setup_pipeline_runs (env : Env) (self : DepthAnythingPipeline) (w : World) :
  setup_pipeline env self w =
    match transformers_pipeline env (trace w) (lit "depth-estimation")
            (model_id self) (device self) with
    | Ok p =>
        (Ok p,
         MkWorld (trace w ++ [built self;
                              LogInfo (lit "Model loaded successfully.")])
           (allocated w))
    | Raise e =>
        (Raise e,
         MkWorld (trace w ++ [built self;
                              LogError (lit "Failed to load model: "
                                          ++ exc_message e)])
           (allocated w))
    end.
Proof.
  run_py.
  destruct (transformers_pipeline env (trace w) _ _ _);
    cbn [trace allocated]; now rewrite <- app_assoc.
Qed.

Lemma constructions_app (t u : Trace) :
  constructions (t ++ u) = (constructions t + constructions u)%nat.
Proof. unfold constructions. now rewrite filter_app, length_app. Qed.

Lemma device_selections_app (t u : Trace) :
  device_selections (t ++ u) = (device_selections t + device_selections u)%nat.
Proof. unfold device_selections. now rewrite filter_app, length_app. Qed.

(** C9. When [transformers.pipeline] raises, [setup_pipeline] logs
    "Failed to load model: ..." as an error and raises the same exception,
    having called the constructor once, for the model and device of
    [self]; when it returns a pipeline, [setup_pipeline] logs the success
    and returns that pipeline. *)
Theorem setup_pipeline_propagates
  (env : Env) (self : DepthAnythingPipeline) (w : World) :
  let answer :=
    transformers_pipeline env (trace w) (lit "depth-estimation")
      (model_id self) (device self) in
  (forall e, answer = Raise e ->
     setup_pipeline env self w =
       (Raise e,
        MkWorld (trace w ++ [built self;
                             LogError (lit "Failed to load model: "
                                         ++ exc_message e)])
          (allocated w)))
  /\ (forall p, answer = Ok p ->
        setup_pipeline env self w =
          (Ok p,
           MkWorld (trace w ++ [built self;
                                LogInfo (lit "Model loaded successfully.")])
             (allocated w)))
  /\ constructions (trace (snd (setup_pipeline env self w)))
     = S (constructions (trace w)).
Proof.
  cbv zeta. rewrite setup_pipeline_runs.
  destruct (transformers_pipeline env (trace w) _ _ _) as [p|e];
    (split; [| split]); try discriminate; try congruence;
    cbn [snd trace]; rewrite constructions_app; cbn; lia.
Qed.

Lemma setup_pipeline_propagates_witness :
  transformers_pipeline Samples.offline [] (lit "depth-estimation")
    (model_id Samples.a_pipeline) (device Samples.a_pipeline)
  = Raise Samples.connection_error /\
  setup_pipeline Samples.offline Samples.a_pipeline Samples.fresh =
    (Raise Samples.connection_error,
     MkWorld [built Samples.a_pipeline;
              LogError (lit "Failed to load model: "
                          ++ exc_message Samples.connection_error)] 0).
Proof.
  split; [reflexivity |].
  apply (proj1 (setup_pipeline_propagates Samples.offline Samples.a_pipeline
                  Samples.fresh) Samples.connection_error).
  reflexivity.
Defined.

(** C2 (as amended). When [Path(image_path).exists()] answers False,
    [__call__] raises [FileNotFoundError] with the message
    "Image file <path> not found.", which contains the path; when it raises,
    [__call__] raises that error. Either way nothing has happened by then,
    and whatever is put in the place of [transformers.pipeline] is never
    called: the outcome is the same and no construction is recorded. *)
Theorem call_missing_path
  (env : Env) (self : DepthAnythingPipeline) (image_path : PathLike) (w : World) :
  let path := Path_ env image_path in
  let failure := Raise (FileNotFoundError (not_found_message path)) in
  (path_exists env (trace w) path = Ok false ->
   __call__ env self image_path w = (failure, w)
   /\ contains (not_found_message path) (path_str path) = true
   /\ forall probe,
        __call__ (with_construction_probe env probe) self image_path w
        = (failure, w))
  /\ (forall e,
        path_exists env (trace w) path = Raise e ->
        __call__ env self image_path w = (Raise e, w)
        /\ forall probe,
             __call__ (with_construction_probe env probe) self image_path w
             = (Raise e, w)).
Proof.
  cbv zeta.
  assert (Hprobe : forall probe,
             __call__ (with_construction_probe env probe) self image_path w
             = match path_exists env (trace w) (Path_ env image_path) with
               | Ok false =>
                   (Raise (FileNotFoundError
                             (not_found_message (Path_ env image_path))), w)
               | Raise e => (Raise e, w)
               | Ok true =>
                   __call__ (with_construction_probe env probe) self
                     image_path w
               end).
  { intros probe. unfold __call__ at 1, bind at 1.
    rewrite validate_image_path_runs.
    change (path_exists (with_construction_probe env probe))
      with (path_exists env).
    change (Path_ (with_construction_probe env probe) image_path)
      with (Path_ env image_path).
    destruct (path_exists env (trace w) (Path_ env image_path)) as [[|]|e] eqn:E;
      try reflexivity.
    unfold __call__, bind. rewrite validate_image_path_runs.
    change (path_exists (with_construction_probe env probe))
      with (path_exists env).
    change (Path_ (with_construction_probe env probe) image_path)
      with (Path_ env image_path).
    now rewrite E. }
  split.
  - intros Hmissing. split; [| split].
    + unfold __call__, bind. rewrite validate_image_path_runs, Hmissing.
      reflexivity.
    + apply contains_app.
    + intros probe. rewrite Hprobe, Hmissing. reflexivity.
  - intros e Hraises. split.
    + unfold __call__, bind. rewrite validate_image_path_runs, Hraises.
      reflexivity.
    + intros probe. rewrite Hprobe, Hraises. reflexivity.
Qed.

Lemma call_missing_path_witness :
  path_exists Samples.laptop [] (Path_ Samples.laptop (OfStr Samples.missing_png))
    = Ok false /\
  __call__ Samples.laptop Samples.a_pipeline (OfStr Samples.missing_png)
    Samples.fresh
  = (Raise (FileNotFoundError
              (lit "Image file /tmp/missing.png not found.")),
     Samples.fresh).
Proof.
  split; [reflexivity |].
  apply (proj1 (proj1 (call_missing_path Samples.laptop Samples.a_pipeline
                         (OfStr Samples.missing_png) Samples.fresh)
                  eq_refl)).
Defined.

(** C2 fails as stated: the over-long name is that of no file on the
    disk, and on it [__call__] raises the [OSError] of [os.stat], which is
    no file-not-found condition and does not carry the message of
    [validate_image_path]. *)
Lemma call_name_too_long :
  on_disk Samples.laptop [] (Path_ Samples.laptop (OfStr Samples.too_long))
    = false
  /\ __call__ Samples.laptop Samples.a_pipeline (OfStr Samples.too_long)
       Samples.fresh
     = (Raise (MkException (lit "OSError")
                 (lit "[Errno 36] File name too long: '"
                    ++ Samples.too_long ++ lit "'")),
        Samples.fresh)
  /\ lit "OSError" <> lit "FileNotFoundError".
Proof.
  split; [vm_compute; reflexivity | split; [vm_compute; reflexivity |]].
  vm_compute. discriminate.
Qed.

End FuncFacts.

(** * Properties of the presentation adapter and of the entry point *)

Module AppFacts.
Import Runtime Func App Observe FuncFacts.

Lemma init_runs (env : Env) (model : str) (w : World) :
  __init__ env model w =
    (Ok (MkDepthAnythingPipeline (allocated w) model
           (selected_device env (trace w))),
     MkWorld (trace w ++ selection_events env (trace w)) (S (allocated w))).
Proof.
  unfold __init__, new_object, bind, ret.
  rewrite set_device_runs. cbn [trace allocated].
  unfold selection_events, selected_device.
  now destruct (mps_is_available env (trace w)).
Qed.

(** What a run of [__call__] adds to the trace. *)
Lemma call_effects (env : Env) (self : DepthAnythingPipeline)
  (image_path : PathLike) (w : World) :
  exists evs,
    trace (snd (__call__ env self image_path w)) = trace w ++ evs
    /\ allocated (snd (__call__ env self image_path w)) = allocated w
    /\ device_selections evs = O
    /\ constructions evs =
         match path_exists env (trace w) (Path_ env image_path) with
         | Ok true => 1%nat
         | _ => O
         end.
Proof.
  unfold __call__, bind at 1 2 3 4.
  rewrite validate_image_path_runs.
  destruct (path_exists env (trace w) (Path_ env image_path)) as [[|]|e0].
  - unfold bind. rewrite setup_pipeline_runs.
    destruct (transformers_pipeline env (trace w) _ _ _) as [p|e].
    + unfold run, bind, ask, emit, lift. cbn [trace allocated snd].
      eexists. rewrite <- app_assoc. repeat split; reflexivity.
    + cbn [snd trace allocated]. eexists. repeat split; reflexivity.
  - exists []. cbn [snd]. rewrite app_nil_r. repeat split; reflexivity.
  - exists []. cbn [snd]. rewrite app_nil_r. repeat split; reflexivity.
Qed.

Lemma estimate_depth_runs (env : Env) (image_path : PathLike) (w : World) :
  estimate_depth env image_path w =
    match __call__ env (created env w) image_path (at_call env image_path w) with
    | (Ok output, w') =>
        match getitem output (lit "depth") with
        | Ok depth =>
            (match depth with
             | [] =>
                 Raise (TypeError (lit "'NoneType' object is not subscriptable"))
             | _ :: _ => Ok (color_image env depth)
             end, w')
        | Raise e => (Raise e, w')
        end
    | (Raise e, w') => (Raise e, w')
    end.
Proof.
  unfold estimate_depth, bind at 1 2.
  rewrite init_runs.
  unfold logger_info, emit. cbn [trace allocated].
  unfold bind at 1.
  replace (MkWorld ((trace w ++ selection_events env (trace w)) ++ _) _)
    with (at_call env image_path w)
    by (unfold at_call; now rewrite <- app_assoc).
  fold (created env w).
  destruct (__call__ env (created env w) image_path (at_call env image_path w))
    as [[output|e] w']; [| reflexivity].
  unfold bind, lift, cv2_applyColorMap, np_array, raise, ret.
  destruct (getitem output (lit "depth")) as [depth|e]; [| reflexivity].
  destruct depth as [|row rest]; [reflexivity |].
  unfold reverse_channels, color_image. do 2 f_equal. rewrite map_map.
  apply map_ext. intros r. rewrite map_map. apply map_ext. intros v.
  unfold inferno_rgb. now destruct (colormap_inferno env v) as [[b g] c].
Qed.

Lemma device_selections_selection_events (env : Env) (t : Trace) :
  device_selections (selection_events env t) = 1%nat.
Proof.
  unfold selection_events. now destruct (mps_is_available env t).
Qed.

Lemma constructions_selection_events (env : Env) (t : Trace) :
  constructions (selection_events env t) = O.
Proof.
  unfold selection_events. now destruct (mps_is_available env t).
Qed.

(** What a run of [estimate_depth] adds to the trace. *)
Lemma estimate_depth_effects (env : Env) (image_path : PathLike) (w : World) :
  exists evs,
    trace (snd (estimate_depth env image_path w)) = trace w ++ evs
    /\ allocated (snd (estimate_depth env image_path w)) = S (allocated w)
    /\ device_selections evs = 1%nat
    /\ constructions evs =
         match path_exists env (trace (at_call env image_path w))
                 (Path_ env image_path) with
         | Ok true => 1%nat
         | _ => O
         end.
Proof.
  destruct (call_effects env (created env w) image_path
              (at_call env image_path w))
    as (evs & Htrace & Halloc & Hsel & Hnew).
  exists (selection_events env (trace w)
            ++ [LogInfo (lit "Estimating depth for image: "
                           ++ format_pathlike image_path)] ++ evs).
  assert (Hsnd : snd (estimate_depth env image_path w)
                 = snd (__call__ env (created env w) image_path
                          (at_call env image_path w))).
  { rewrite estimate_depth_runs.
    destruct (__call__ env (created env w) image_path
                (at_call env image_path w)) as [[output|e] w'];
      [| reflexivity].
    now destruct (getitem output (lit "depth")) as [depth|e]. }
  rewrite Hsnd, Htrace, Halloc.
  repeat split.
  - cbn [at_call trace]. now rewrite <- !app_assoc.
  - rewrite !device_selections_app, device_selections_selection_events, Hsel.
    reflexivity.
  - rewrite !constructions_app, constructions_selection_events, Hnew.
    reflexivity.
Qed.

Lemma estimate_depth_wrapper_runs (env : Env) (image_fp : str) (w : World) :
  estimate_depth_wrapper env image_fp w =
    match estimate_depth env (OfPath (Path_ env (OfStr image_fp))) w with
    | (Ok depth, w') => (Ok (image_fp, DepthMap depth), w')
    | (Raise e, w') =>
        (Ok (image_fp,
             Message (lit "Error during estimation: " ++ exc_message e)), w')
    end.
Proof.
  unfold estimate_depth_wrapper, try_except, bind, ret.
  now destruct (estimate_depth env _ w) as [[depth|e] w'].
Qed.

(** C3. [estimate_depth_wrapper] never raises and always returns the
    supplied path as the first element of its pair; whenever
    [estimate_depth] raises an exception, the second element is the text
    "Error during estimation: " followed by the exception's message, which
    contains the word "Error". *)
Theorem estimate_depth_wrapper_reports (env : Env) (image_fp : str) (w : World) :
  (exists shown w',
      estimate_depth_wrapper env image_fp w = (Ok (image_fp, shown), w'))
  /\ (forall e w',
        estimate_depth env (OfPath (Path_ env (OfStr image_fp))) w
        = (Raise e, w') ->
        estimate_depth_wrapper env image_fp w =
          (Ok (image_fp,
               Message (lit "Error during estimation: " ++ exc_message e)),
           w')
        /\ contains (lit "Error during estimation: " ++ exc_message e)
             (lit "Error") = true).
Proof.
  rewrite estimate_depth_wrapper_runs.
  destruct (estimate_depth env _ w) as [[depth|e] w1].
  - split; [eauto | discriminate].
  - split; [eauto |].
    intros e' w' [= <- <-]. split; [reflexivity |].
    apply (contains_app [] (lit " during estimation: " ++ exc_message e)
             (lit "Error")).
Qed.

Lemma estimate_depth_wrapper_reports_witness :
  estimate_depth Samples.offline
    (OfPath (Path_ Samples.offline (OfStr Samples.cat_png))) Samples.fresh
  = (Raise Samples.connection_error, Samples.offline_failed)
  /\ estimate_depth_wrapper Samples.offline Samples.cat_png Samples.fresh =
       (Ok (Samples.cat_png,
            Message (lit "Error during estimation: We couldn't connect to huggingface.co")),
        Samples.offline_failed).
Proof.
  split; [reflexivity |].
  apply (proj2 (estimate_depth_wrapper_reports Samples.offline Samples.cat_png
                  Samples.fresh) Samples.connection_error).
  reflexivity.
Defined.

(** C4. The port derived from "depth_estimator" is 45944; it is the value
    of [DEFAULT_PORT], and the entry point launches the server on
    0.0.0.0 at that port. *)
Theorem default_port_is_45944 :
  Port.string_to_port_crc32 (lit "depth_estimator") = Ok 45944
  /\ DEFAULT_PORT = Ok 45944
  /\ forall env w,
       exists start,
         main env = Ok start
         /\ start w =
              (Ok tt,
               MkWorld (trace w ++ [GradioBlocks (lit "DepthEstimator"); Queue;
                                    Launch (lit "0.0.0.0") 45944])
                 (allocated w)).
Proof.
  assert (Hport : DEFAULT_PORT = Ok 45944) by (vm_compute; reflexivity).
  split; [exact Hport | split; [exact Hport |]].
  intros env w. unfold main. rewrite Hport.
  eexists. split; [reflexivity |].
  unfold setup_gradio_interface, bind, emit, ret. cbn [trace allocated].
  now rewrite <- !app_assoc.
Qed.

Lemma inferno_rgb_length (env : Env) (v : Z) : length (inferno_rgb env v) = 3%nat.
Proof. unfold inferno_rgb. now destruct (colormap_inferno env v) as [[b g] r]. Qed.

Lemma colorized_shape (env : Env) (depth : ndarray2) (wd : nat) :
  rows_of_width wd depth ->
  rows_of_width3 wd 3 (color_image env depth).
Proof.
  intros Hrows. unfold rows_of_width3, color_image.
  induction Hrows as [|row rest Hrow _ IH]; cbn [map]; constructor; [| exact IH].
  split; [now rewrite length_map |].
  apply Forall_forall. intros px Hin. apply in_map_iff in Hin as (v & <- & _).
  apply inferno_rgb_length.
Qed.

(** C6 (as amended). For a path for which [Path.exists()] answers True, a
    pipeline that is built and that always answers a dict whose "depth"
    entry is an [h] by [wd] depth map with at least one pixel,
    [estimate_depth] returns an array of shape [(h, wd, 3)]: [h] rows of
    [wd] pixels of 3 channels, the pixel of each depth value being its
    colormap entry in R, G, B order. *)
Theorem estimate_depth_shape
  (env : Env) (image_path : PathLike) (w : World)
  (p : HFPipeline) (output : PipelineOutput) (depth : GrayImage) (h wd : nat)
  (Hexists : forall t, path_exists env t (Path_ env image_path) = Ok true)
  (Hbuilt : forall t model d,
      transformers_pipeline env t (lit "depth-estimation") model d = Ok p)
  (Hanswer : forall t arg, pipeline_run env t p arg = Ok output)
  (Hdepth : getitem output (lit "depth") = Ok depth)
  (Hshape : shape2 depth = (h, wd) /\ rows_of_width wd depth)
  (Hh : (0 < h)%nat) (Hwd : (0 < wd)%nat) :
  exists image w',
    estimate_depth env image_path w = (Ok image, w')
    /\ image = color_image env depth
    /\ shape3 image = (h, wd, 3%nat)
    /\ rows_of_width3 wd 3 image.
Proof.
  destruct Hshape as [Hdims Hrows].
  unfold shape2 in Hdims. injection Hdims as Hlen Hhd.
  destruct depth as [|row more]; [cbn in Hlen; lia |].
  rewrite estimate_depth_runs.
  unfold __call__, bind at 1. rewrite validate_image_path_runs, Hexists.
  unfold bind at 1. rewrite setup_pipeline_runs, Hbuilt.
  unfold run, bind, ask, emit, lift. cbn [trace allocated].
  rewrite Hanswer, Hdepth.
  do 2 eexists. split; [reflexivity |].
  split; [reflexivity |]. split.
  - unfold shape3, color_image. rewrite length_map, Hlen.
    cbn [map hd pixels]. cbn [length]. rewrite length_map, inferno_rgb_length.
    cbn [pixels length] in Hhd. now rewrite Hhd.
  - apply colorized_shape. exact Hrows.
Qed.

Lemma estimate_depth_shape_witness :
  (forall t, path_exists Samples.laptop t
               (Path_ Samples.laptop (OfStr Samples.cat_png)) = Ok true)
  /\ shape2 Samples.depth_2x3 = (2%nat, 3%nat)
  /\ exists image w',
       estimate_depth Samples.laptop (OfStr Samples.cat_png) Samples.fresh
       = (Ok image, w')
       /\ image = color_image Samples.laptop Samples.depth_2x3
       /\ shape3 image = (2%nat, 3%nat, 3%nat)
       /\ rows_of_width3 3 3 image.
Proof.
  split; [intros t; reflexivity | split; [reflexivity |]].
  apply (estimate_depth_shape Samples.laptop (OfStr Samples.cat_png)
           Samples.fresh 7%nat
           [(lit "predicted_depth", []); (lit "depth", Samples.depth_2x3)]
           Samples.depth_2x3 2 3).
  - intros t. reflexivity.
  - intros t model d. reflexivity.
  - intros t arg. reflexivity.
  - reflexivity.
  - split; [reflexivity | repeat constructor].
  - lia.
  - lia.
Defined.

(** C6 fails as stated: the file exists and the pipeline always answers
    the same two-dimensional depth array, one without rows; the color
    mapping gives [None] for it and [estimate_depth] raises [TypeError] at
    the slice instead of returning an image. *)
Lemma estimate_depth_no_rows :
  path_exists Samples.rowless []
    (Path_ Samples.rowless (OfStr Samples.cat_png)) = Ok true
  /\ pipeline_run Samples.rowless [] 7%nat Samples.cat_png
     = Ok [(lit "depth", [])]
  /\ fst (estimate_depth Samples.rowless (OfStr Samples.cat_png) Samples.fresh)
     = Raise (TypeError (lit "'NoneType' object is not subscriptable")).
Proof. repeat split. Qed.

(** What one press of the button adds to the trace, for a file that
    exists. *)
Lemma press_effects (env : Env) (image_fp : str) (w : World) :
  (forall t, path_exists env t (Path_ env (OfStr image_fp)) = Ok true) ->
  exists shown evs w',
    estimate_depth_wrapper env image_fp w = (Ok shown, w')
    /\ trace w' = trace w ++ evs
    /\ allocated w' = S (allocated w)
    /\ device_selections evs = 1%nat
    /\ constructions evs = 1%nat.
Proof.
  intros Hexists.
  destruct (estimate_depth_effects env (OfPath (Path_ env (OfStr image_fp))) w)
    as (evs & Htrace & Halloc & Hsel & Hnew).
  cbn [Path_] in Hnew. rewrite Hexists in Hnew.
  rewrite estimate_depth_wrapper_runs.
  destruct (estimate_depth env _ w) as [[depth|e] w1]; cbn [snd] in *;
    do 3 eexists; repeat split; eassumption.
Qed.

Lemma setup_gradio_interface_runs (env : Env) (w : World) :
  setup_gradio_interface env w =
    (Ok (MkBlocks (lit "DepthEstimator") (lit "Estimate!")
           (estimate_depth_wrapper env)),
     MkWorld (trace w ++ [GradioBlocks (lit "DepthEstimator")]) (allocated w)).
Proof. reflexivity. Qed.

(** C8. Every run of [estimate_depth], whatever happened before, creates
    one new [DepthAnythingPipeline] object and runs the device selection
    once for it, and calls [transformers.pipeline] once if the path exists
    (never more than once, and nothing is kept from earlier runs); so a
    series of presses, on the page [setup_gradio_interface] builds, for
    existing files creates as many objects, runs as many device selections
    and builds as many pipelines as there are presses. *)
Theorem no_pipeline_caching (env : Env) (uploads : list str) (w : World)
  (Hexist : forall image_fp t,
      In image_fp uploads ->
      path_exists env t (Path_ env (OfStr image_fp)) = Ok true) :
  (forall image_path w0,
      exists evs,
        trace (snd (estimate_depth env image_path w0)) = trace w0 ++ evs
        /\ allocated (snd (estimate_depth env image_path w0))
           = S (allocated w0)
        /\ device_selections evs = 1%nat
        /\ constructions evs =
             match path_exists env (trace (at_call env image_path w0))
                     (Path_ env image_path) with
             | Ok true => 1%nat
             | _ => O
             end)
  /\ forall w0,
       exists demo w1,
         setup_gradio_interface env w0 = (Ok demo, w1)
         /\ exists shown evs w',
              presses demo uploads w = (Ok shown, w')
              /\ trace w' = trace w ++ evs
              /\ allocated w' = (allocated w + length uploads)%nat
              /\ device_selections evs = length uploads
              /\ constructions evs = length uploads.
Proof.
  split; [intros image_path w0; apply estimate_depth_effects |].
  intros w0. rewrite setup_gradio_interface_runs.
  do 2 eexists. split; [reflexivity |].
  revert w. induction uploads as [|image_fp rest IH]; intros w.
  - exists [], [], w. cbn. rewrite app_nil_r, Nat.add_0_r. repeat split.
  - destruct (press_effects env image_fp w) as
      (shown & evs & w1 & Hrun & Htrace & Halloc & Hsel & Hnew).
    { intros t. apply Hexist. now left. }
    destruct (IH (fun fp t Hin => Hexist fp t (or_intror Hin)) w1) as
      (others & evs' & w2 & Hrun' & Htrace' & Halloc' & Hsel' & Hnew').
    exists (shown :: others), (evs ++ evs'), w2.
    cbn [presses fn]. unfold bind at 1. rewrite Hrun.
    unfold bind at 1. rewrite Hrun'. unfold ret.
    repeat split.
    + now rewrite Htrace', Htrace, <- app_assoc.
    + rewrite Halloc', Halloc. cbn [length]. lia.
    + rewrite device_selections_app, Hsel, Hsel'. reflexivity.
    + rewrite constructions_app, Hnew, Hnew'. reflexivity.
Qed.

Lemma no_pipeline_caching_witness :
  (forall image_fp t,
      In image_fp [Samples.cat_png; Samples.cat_png] ->
      path_exists Samples.laptop t (Path_ Samples.laptop (OfStr image_fp))
      = Ok true)
  /\ exists demo w1,
       setup_gradio_interface Samples.laptop Samples.fresh = (Ok demo, w1)
       /\ exists shown evs w',
            presses demo [Samples.cat_png; Samples.cat_png] Samples.fresh
            = (Ok shown, w')
            /\ trace w' = trace Samples.fresh ++ evs
            /\ allocated w' = 2%nat
            /\ device_selections evs = 2%nat
            /\ constructions evs = 2%nat.
Proof.
  assert (Hexist : forall image_fp t,
             In image_fp [Samples.cat_png; Samples.cat_png] ->
             path_exists Samples.laptop t
               (Path_ Samples.laptop (OfStr image_fp)) = Ok true).
  { intros image_fp t [<- | [<- | []]]; reflexivity. }
  split; [exact Hexist |].
  exact (proj2 (no_pipeline_caching Samples.laptop
                  [Samples.cat_png; Samples.cat_png] Samples.fresh Hexist)
           Samples.fresh).
Defined.

End AppFacts.


(** * More on the port selector *)

Module PortMore.
Import Port Observe.

Lemma below_pow2_lxor (n a b : Z) :
  0 < n -> 0 <= a < 2 ^ n -> 0 <= b < 2 ^ n -> 0 <= Z.lxor a b < 2 ^ n.
Proof.
  intros Hn Ha Hb.
  assert (Hnonneg : 0 <= Z.lxor a b) by (apply Z.lxor_nonneg; lia).
  split; [exact Hnonneg |].
  destruct (Z.eq_dec (Z.lxor a b) 0) as [-> | Hnz]; [lia |].
  apply Z.log2_lt_pow2; [lia |].
  pose proof (Z.log2_lxor a b (proj1 Ha) (proj1 Hb)) as Hlog.
  assert (Hla : Z.log2 a < n).
  { destruct (Z.eq_dec a 0) as [-> | Hpos]; [cbn; lia |].
    apply Z.log2_lt_pow2; lia. }
  assert (Hlb : Z.log2 b < n).
  { destruct (Z.eq_dec b 0) as [-> | Hpos]; [cbn; lia |].
    apply Z.log2_lt_pow2; lia. }
  lia.
Qed.

Lemma below_pow2_lor (n a b : Z) :
  0 < n -> 0 <= a < 2 ^ n -> 0 <= b < 2 ^ n -> 0 <= Z.lor a b < 2 ^ n.
Proof.
  intros Hn Ha Hb.
  assert (Hnonneg : 0 <= Z.lor a b) by (apply Z.lor_nonneg; lia).
  split; [exact Hnonneg |].
  destruct (Z.eq_dec (Z.lor a b) 0) as [-> | Hnz]; [lia |].
  apply Z.log2_lt_pow2; [lia |].
  rewrite (Z.log2_lor a b (proj1 Ha) (proj1 Hb)).
  assert (Hla : Z.log2 a < n).
  { destruct (Z.eq_dec a 0) as [-> | Hpos]; [cbn; lia |].
    apply Z.log2_lt_pow2; lia. }
  assert (Hlb : Z.log2 b < n).
  { destruct (Z.eq_dec b 0) as [-> | Hpos]; [cbn; lia |].
    apply Z.log2_lt_pow2; lia. }
  lia.
Qed.

Lemma crc_shift_in_32_bits (crc : Z) : in_32_bits crc -> in_32_bits (crc_shift crc).
Proof.
  unfold in_32_bits, crc_shift. intros Hcrc.
  assert (Hhalf : 0 <= Z.shiftr crc 1 < 2 ^ 32).
  { rewrite Z.shiftr_div_pow2 by lia. change (2 ^ 1) with 2.
    split; [apply Z.div_pos; lia |].
    apply Z.div_lt_upper_bound; lia. }
  destruct (Z.testbit crc 0); [| exact Hhalf].
  apply below_pow2_lxor; [lia | exact Hhalf | lia].
Qed.

Lemma crc_byte_in_32_bits (crc b : Z) :
  in_32_bits crc -> is_octet b = true -> in_32_bits (crc_byte crc b).
Proof.
  intros Hcrc Hb. unfold is_octet in Hb.
  apply andb_true_iff in Hb as [Hlo Hhi].
  apply Z.leb_le in Hlo. apply Z.ltb_lt in Hhi.
  unfold crc_byte.
  assert (Hstart : in_32_bits (Z.lxor crc b)).
  { apply below_pow2_lxor; [lia | exact Hcrc | lia]. }
  cbn [Nat.iter]. now do 8 apply crc_shift_in_32_bits.
Qed.

Lemma crc_register_in_32_bits (data : bytes) :
  forallb is_octet data = true ->
  forall crc, in_32_bits crc -> in_32_bits (fold_left crc_byte data crc).
Proof.
  induction data as [|b rest IH]; intros Hdata crc Hcrc; [exact Hcrc |].
  cbn in Hdata. apply andb_true_iff in Hdata as [Hb Hrest].
  cbn [fold_left]. apply IH; [exact Hrest |].
  now apply crc_byte_in_32_bits.
Qed.

Lemma zlib_crc32_in_32_bits (data : bytes) :
  forallb is_octet data = true -> in_32_bits (zlib_crc32 data).
Proof.
  intros Hdata. unfold zlib_crc32.
  apply (below_pow2_lxor 32); [lia | | lia].
  apply crc_register_in_32_bits; [exact Hdata | unfold in_32_bits; lia].
Qed.

Lemma is_octet_spec (b : Z) : is_octet b = true <-> 0 <= b < 2 ^ 8.
Proof.
  unfold is_octet. rewrite andb_true_iff, Z.leb_le, Z.ltb_lt.
  change (2 ^ 8) with 256. reflexivity.
Qed.

Lemma low_six_bits (c : Z) : 0 <= Z.land c 0x3F < 2 ^ 8.
Proof.
  change 0x3F with (Z.ones 6). rewrite Z.land_ones by lia.
  pose proof (Z.mod_pos_bound c (2 ^ 6)). lia.
Qed.

Lemma shifted_code_point (c k : Z) :
  0 <= c -> 0 <= k -> c < 2 ^ (k + 8) -> 0 <= Z.shiftr c k < 2 ^ 8.
Proof.
  intros Hc Hk Hlt. rewrite Z.shiftr_div_pow2 by lia.
  assert (Hpow : 0 < 2 ^ k) by (apply Z.pow_pos_nonneg; lia).
  split; [apply Z.div_pos; lia |].
  apply Z.div_lt_upper_bound; [lia |].
  now rewrite <- Z.pow_add_r by lia.
Qed.

Lemma utf8_char_octets (c : Z) :
  is_code_point c = true -> forallb is_octet (utf8_char c) = true.
Proof.
  unfold is_code_point. rewrite andb_true_iff, Z.leb_le, Z.leb_le.
  intros [Hlo Hhi]. unfold utf8_char.
  pose proof (low_six_bits c) as H0.
  pose proof (low_six_bits (Z.shiftr c 6)) as H6.
  pose proof (low_six_bits (Z.shiftr c 12)) as H12.
  destruct (c <? 0x80) eqn:E1; [| destruct (c <? 0x800) eqn:E2;
    [| destruct (c <? 0x10000) eqn:E3]];
    rewrite ?Z.ltb_lt, ?Z.ltb_ge in *;
    cbn [forallb]; rewrite ?andb_true_iff; repeat split;
    try (apply is_octet_spec; apply below_pow2_lor; try lia;
         first [ assumption
               | apply (shifted_code_point c 6); lia
               | apply (shifted_code_point c 12); lia
               | apply (shifted_code_point c 18); lia ]).
  apply is_octet_spec. change (2 ^ 8) with 256. lia.
Qed.

Lemma encode_from_octets (whole s : str) :
  forallb is_code_point s = true ->
  forall pos data,
    encode_from whole pos s = Ok data -> forallb is_octet data = true.
Proof.
  induction s as [|c rest IH]; intros Hcp pos data Henc.
  - cbn in Henc. now injection Henc as <-.
  - cbn in Hcp. apply andb_true_iff in Hcp as [Hc Hrest].
    cbn [encode_from] in Henc.
    destruct (is_surrogate c); [discriminate |].
    destruct (encode_from whole (S pos) rest) as [bs|e] eqn:E; [| discriminate].
    injection Henc as <-. rewrite forallb_app.
    rewrite (utf8_char_octets c Hc). now rewrite (IH Hrest (S pos) bs E).
Qed.

(** X2. On a string of code points without surrogates, the UTF-8 data are
    octets and their CRC-32 is already an unsigned 32-bit value: the mask
    [& 0xFFFFFFFF] changes nothing, and the port is 10000 plus the checksum
    modulo 50000. *)
Theorem crc32_mask_changes_nothing (S : str)
  (Hcp : forallb is_code_point S = true) (Henc : encodable S = true) :
  exists data,
    encode S = Ok data
    /\ forallb is_octet data = true
    /\ 0 <= zlib_crc32 data < 2 ^ 32
    /\ Z.land (zlib_crc32 data) 0xFFFFFFFF = zlib_crc32 data
    /\ string_to_port_crc32 S = Ok (10000 + zlib_crc32 data mod 50000).
Proof.
  destruct (PortFacts.encode_from_encodable S S Henc O) as [data Hdata].
  pose proof (encode_from_octets S S Hcp O data Hdata) as Hoct.
  pose proof (zlib_crc32_in_32_bits data Hoct) as Hcrc.
  assert (Hmask : Z.land (zlib_crc32 data) 0xFFFFFFFF = zlib_crc32 data).
  { change 0xFFFFFFFF with (Z.ones 32). rewrite Z.land_ones by lia.
    apply Z.mod_small. exact Hcrc. }
  exists data. repeat split; try assumption; try apply Hcrc.
  unfold string_to_port_crc32. fold (encode S) in Hdata. rewrite Hdata.
  cbv zeta. now rewrite Hmask.
Qed.

Lemma crc32_mask_changes_nothing_witness :
  forallb is_code_point [0xE9; 0x20AC; 0x1F600] = true
  /\ encodable [0xE9; 0x20AC; 0x1F600] = true
  /\ exists data,
       encode [0xE9; 0x20AC; 0x1F600] = Ok data
       /\ forallb is_octet data = true
       /\ 0 <= zlib_crc32 data < 2 ^ 32
       /\ Z.land (zlib_crc32 data) 0xFFFFFFFF = zlib_crc32 data
       /\ string_to_port_crc32 [0xE9; 0x20AC; 0x1F600]
          = Ok (10000 + zlib_crc32 data mod 50000).
Proof.
  split; [reflexivity | split; [reflexivity |]].
  apply (crc32_mask_changes_nothing [0xE9; 0x20AC; 0x1F600]); reflexivity.
Defined.

Lemma encode_from_raises (whole s : str) :
  encodable s = false ->
  forall pos,
    encode_from whole pos s =
      Raise (MkUnicodeEncodeError (lit "utf-8") whole
               (pos + first_surrogate s)
               (pos + first_surrogate s
                + surrogate_run (skipn (first_surrogate s) s))
               (lit "surrogates not allowed")).
Proof.
  induction s as [|c rest IH]; intros Henc pos; [discriminate |].
  cbn [encodable forallb] in Henc. cbn [encode_from first_surrogate].
  destruct (is_surrogate c) eqn:Hc.
  - cbn [skipn]. now rewrite Nat.add_0_r.
  - cbn [negb andb] in Henc. rewrite (IH Henc (S pos)).
    cbn [skipn]. now rewrite <- !plus_n_Sm.
Qed.

Lemma first_surrogate_found (s : str) :
  encodable s = false ->
  (first_surrogate s < length s)%nat
  /\ (exists c, nth_error s (first_surrogate s) = Some c /\ is_surrogate c = true)
  /\ encodable (firstn (first_surrogate s) s) = true
  /\ (0 < surrogate_run (skipn (first_surrogate s) s)
      <= length s - first_surrogate s)%nat.
Proof.
  assert (Hrun : forall t, (surrogate_run t <= length t)%nat).
  { induction t as [|c t IH]; cbn; [lia |].
    destruct (is_surrogate c); lia. }
  induction s as [|c rest IH]; intros Henc; [discriminate |].
  cbn [encodable forallb] in Henc. cbn [first_surrogate].
  destruct (is_surrogate c) eqn:Hc.
  - cbn [skipn firstn nth_error length surrogate_run]. rewrite Hc.
    pose proof (Hrun rest). repeat split; try lia. now exists c.
  - cbn [negb andb] in Henc. destruct (IH Henc) as (Hlt & Hnth & Hpre & Hlen).
    cbn [skipn firstn nth_error length encodable forallb]. rewrite Hc.
    repeat split; try lia; assumption.
Qed.

(** X1. [string_to_port_crc32] raises exactly on the strings that hold a
    surrogate code point; the [UnicodeEncodeError] then carries the whole
    string, starts at its first surrogate (nothing before it is one) and
    covers the run of surrogates there. *)
Theorem string_to_port_crc32_raises_iff (S : str) :
  (encodable S = false <-> exists e, string_to_port_crc32 S = Raise e)
  /\ forall e,
       string_to_port_crc32 S = Raise e ->
       object e = S
       /\ start e = first_surrogate S
       /\ (exists c, nth_error S (start e) = Some c /\ is_surrogate c = true)
       /\ encodable (firstn (start e) S) = true
       /\ stop e = (start e + surrogate_run (skipn (start e) S))%nat
       /\ (start e < stop e <= length S)%nat.
Proof.
  destruct (encodable S) eqn:Henc.
  - destruct (PortFacts.string_to_port_crc32_returns S Henc) as (p & Hp & _).
    rewrite Hp. split.
    + split; [discriminate | intros [e He]; discriminate].
    + intros e He. discriminate.
  - pose proof (encode_from_raises S S Henc O) as Hraise.
    fold (encode S) in Hraise. cbn [Nat.add] in Hraise.
    unfold string_to_port_crc32. rewrite Hraise.
    destruct (first_surrogate_found S Henc) as (Hlt & Hnth & Hpre & Hlen).
    split.
    + split; [eauto | reflexivity].
    + intros e [= <-]. cbn [object start stop].
      repeat split; try assumption; lia.
Qed.

Lemma string_to_port_crc32_raises_iff_witness :
  encodable [0x61; 0xDC00; 0xD800; 0x62] = false
  /\ exists e, string_to_port_crc32 [0x61; 0xDC00; 0xD800; 0x62] = Raise e.
Proof.
  split; [reflexivity |].
  apply (proj1 (proj1 (string_to_port_crc32_raises_iff
                         [0x61; 0xDC00; 0xD800; 0x62]))).
  reflexivity.
Defined.

End PortMore.

(** * More on the wrapper and the presentation adapter *)

Module AppMore.
Import Runtime Func App Observe FuncFacts AppFacts.

(** What [__call__] does, case by case. *)
Lemma call_runs (env : Env) (self : DepthAnythingPipeline)
  (image_path : PathLike) (w : World) :
  __call__ env self image_path w =
    let path := Path_ env image_path in
    match path_exists env (trace w) path with
    | Ok true =>
        match transformers_pipeline env (trace w) (lit "depth-estimation")
                (model_id self) (device self) with
        | Ok p =>
            (pipeline_run env (trace w ++ loaded self) p (path_str path),
             MkWorld (trace w ++ loaded self ++ [PipelineRun p (path_str path)])
               (allocated w))
        | Raise e =>
            (Raise e, MkWorld (trace w ++ load_failed self e) (allocated w))
        end
    | Ok false => (Raise (FileNotFoundError (not_found_message path)), w)
    | Raise e => (Raise e, w)
    end.
Proof.
  cbv zeta. unfold __call__, bind at 1. rewrite validate_image_path_runs.
  destruct (path_exists env (trace w) (Path_ env image_path)) as [[|]|e0];
    [| reflexivity | reflexivity].
  unfold bind at 1. rewrite setup_pipeline_runs.
  destruct (transformers_pipeline env (trace w) _ _ _) as [p|e]; [| reflexivity].
  unfold run, bind, ask, emit, lift, loaded. cbn [trace allocated].
  rewrite <- app_assoc.
  now destruct (pipeline_run env _ p _).
Qed.

Lemma errors_logged_app (t u : Trace) :
  errors_logged (t ++ u) = (errors_logged t + errors_logged u)%nat.
Proof. unfold errors_logged. now rewrite filter_app, length_app. Qed.

Lemma inferences_app (t u : Trace) :
  inferences (t ++ u) = (inferences t + inferences u)%nat.
Proof. unfold inferences. now rewrite filter_app, length_app. Qed.

Lemma selection_events_quiet (env : Env) (t : Trace) :
  errors_logged (selection_events env t) = O
  /\ inferences (selection_events env t) = O.
Proof. unfold selection_events. now destruct (mps_is_available env t). Qed.

(** [estimate_depth] leaves the world where [__call__] left it. *)
Lemma estimate_depth_world (env : Env) (image_path : PathLike) (w : World) :
  snd (estimate_depth env image_path w)
  = snd (__call__ env (created env w) image_path (at_call env image_path w)).
Proof.
  rewrite estimate_depth_runs.
  destruct (__call__ env (created env w) image_path (at_call env image_path w))
    as [[output|e] w']; [| reflexivity].
  now destruct (getitem output (lit "depth")) as [depth|e].
Qed.

(** [estimate_depth] on a file that exists, with a pipeline that loads. *)
Lemma estimate_depth_when_built
  (env : Env) (image_path : PathLike) (w : World) (p : HFPipeline) :
  (forall t, path_exists env t (Path_ env image_path) = Ok true) ->
  (forall t model d,
      transformers_pipeline env t (lit "depth-estimation") model d = Ok p) ->
  estimate_depth env image_path w =
    let w' := after_inference env image_path w p in
    match pipeline_run env
            (trace (at_call env image_path w) ++ loaded (created env w)) p
            (path_str (Path_ env image_path)) with
    | Ok output =>
        match getitem output (lit "depth") with
        | Ok depth =>
            (match depth with
             | [] =>
                 Raise (TypeError (lit "'NoneType' object is not subscriptable"))
             | _ :: _ => Ok (color_image env depth)
             end, w')
        | Raise e => (Raise e, w')
        end
    | Raise e => (Raise e, w')
    end.
Proof.
  intros Hexists Hbuilt. cbv zeta.
  rewrite estimate_depth_runs, call_runs. cbv zeta.
  rewrite Hexists, Hbuilt.
  replace (MkWorld (trace (at_call env image_path w) ++ _) _)
    with (after_inference env image_path w p).
  - reflexivity.
  - unfold after_inference, at_call, loaded, built, created.
    cbn [trace allocated model_id device]. now rewrite <- !app_assoc.
Qed.

Lemma after_inference_counts
  (env : Env) (image_path : PathLike) (w : World) (p : HFPipeline) :
  exists evs,
    after_inference env image_path w p
    = MkWorld (trace w ++ evs) (S (allocated w))
    /\ constructions evs = 1%nat
    /\ inferences evs = 1%nat
    /\ errors_logged evs = O.
Proof.
  eexists. split; [reflexivity |].
  rewrite constructions_app, inferences_app, errors_logged_app.
  rewrite constructions_selection_events.
  rewrite (proj1 (selection_events_quiet env (trace w))).
  rewrite (proj2 (selection_events_quiet env (trace w))).
  repeat split.
Qed.

Lemma getitem_absent (d : PipelineOutput) (key : str) :
  forallb (fun kv => negb (str_eqb (fst kv) key)) d = true ->
  getitem d key = Raise (KeyError key).
Proof.
  induction d as [|[k v] rest IH]; intros Habsent; [reflexivity |].
  cbn in Habsent. apply andb_true_iff in Habsent as [Hk Hrest].
  apply negb_true_iff in Hk. cbn [getitem]. rewrite Hk. now apply IH.
Qed.

(** X3. When [Path(image_path).exists()] answers False, [estimate_depth]
    raises [FileNotFoundError] naming the path, after it has created its
    object, selected the device and logged
    "Estimating depth for image: ...", and having done nothing else: no
    pipeline is built and none is run. *)
Theorem estimate_depth_missing_file
  (env : Env) (image_path : PathLike) (w : World)
  (Hmissing : path_exists env (trace (at_call env image_path w))
                (Path_ env image_path) = Ok false) :
  let evs :=
    selection_events env (trace w)
    ++ [LogInfo (lit "Estimating depth for image: "
                   ++ format_pathlike image_path)] in
  estimate_depth env image_path w =
    (Raise (FileNotFoundError (not_found_message (Path_ env image_path))),
     MkWorld (trace w ++ evs) (S (allocated w)))
  /\ device_selections evs = 1%nat
  /\ constructions evs = O
  /\ inferences evs = O.
Proof.
  cbv zeta. split.
  - rewrite estimate_depth_runs, call_runs. cbv zeta. rewrite Hmissing.
    reflexivity.
  - rewrite device_selections_app, constructions_app, inferences_app.
    rewrite device_selections_selection_events, constructions_selection_events.
    rewrite (proj2 (selection_events_quiet env (trace w))).
    repeat split.
Qed.

Lemma estimate_depth_missing_file_witness :
  path_exists Samples.laptop
    (trace (at_call Samples.laptop (OfStr Samples.missing_png) Samples.fresh))
    (Path_ Samples.laptop (OfStr Samples.missing_png)) = Ok false
  /\ estimate_depth Samples.laptop (OfStr Samples.missing_png) Samples.fresh =
       (Raise (FileNotFoundError (lit "Image file /tmp/missing.png not found.")),
        MkWorld
          [MpsIsAvailable; CudaIsAvailable; LogInfo (lit "Using device: cpu");
           LogInfo (lit "Estimating depth for image: /tmp/missing.png")]
          1).
Proof.
  split; [reflexivity |].
  apply (proj1 (estimate_depth_missing_file Samples.laptop
                  (OfStr Samples.missing_png) Samples.fresh eq_refl)).
Defined.

(** X4. When [Path(image_path).exists()] answers True and the pipeline is
    built, [estimate_depth]
    has built it once, for the task "depth-estimation", the default model
    and the device it selected in this very run, and has run it once, on
    [str(Path(image_path))]; this holds whatever the pipeline answers. *)
Theorem estimate_depth_builds_on_selected_device
  (env : Env) (image_path : PathLike) (w : World) (p : HFPipeline)
  (Hexists : path_exists env (trace (at_call env image_path w))
               (Path_ env image_path) = Ok true)
  (Hbuilt : transformers_pipeline env (trace (at_call env image_path w))
              (lit "depth-estimation") DEFAULT_MODEL_ID
              (selected_device env (trace w)) = Ok p) :
  trace (snd (estimate_depth env image_path w)) =
    trace w
    ++ selection_events env (trace w)
    ++ [LogInfo (lit "Estimating depth for image: "
                   ++ format_pathlike image_path);
        PipelineNew (lit "depth-estimation") DEFAULT_MODEL_ID
          (selected_device env (trace w));
        LogInfo (lit "Model loaded successfully.");
        PipelineRun p (path_str (Path_ env image_path))]
  /\ allocated (snd (estimate_depth env image_path w)) = S (allocated w).
Proof.
  rewrite estimate_depth_world, call_runs. cbv zeta.
  rewrite Hexists. cbn [created model_id device]. rewrite Hbuilt.
  cbn [snd trace allocated at_call loaded built model_id device].
  split; [| reflexivity].
  now rewrite <- !app_assoc.
Qed.

Lemma estimate_depth_builds_on_selected_device_witness :
  path_exists Samples.laptop
    (trace (at_call Samples.laptop (OfStr Samples.cat_png) Samples.fresh))
    (Path_ Samples.laptop (OfStr Samples.cat_png)) = Ok true
  /\ trace (snd (estimate_depth Samples.laptop (OfStr Samples.cat_png)
                   Samples.fresh)) =
       [MpsIsAvailable; CudaIsAvailable; LogInfo (lit "Using device: cpu");
        LogInfo (lit "Estimating depth for image: /tmp/cat.png");
        PipelineNew (lit "depth-estimation") DEFAULT_MODEL_ID cpu;
        LogInfo (lit "Model loaded successfully.");
        PipelineRun 7%nat (lit "/tmp/cat.png")].
Proof.
  split; [reflexivity |].
  apply (proj1 (estimate_depth_builds_on_selected_device Samples.laptop
                  (OfStr Samples.cat_png) Samples.fresh 7%nat
                  eq_refl eq_refl)).
Defined.

(** X5. When [Path(image_path).exists()] answers True and
    [transformers.pipeline] raises,
    [estimate_depth] raises the same exception: the constructor was called
    once, the failure was logged once as an error, and no pipeline was
    run. *)
Theorem estimate_depth_load_failure
  (env : Env) (image_path : PathLike) (w : World) (e : Exception)
  (Hexists : path_exists env (trace (at_call env image_path w))
               (Path_ env image_path) = Ok true)
  (Hfails : transformers_pipeline env (trace (at_call env image_path w))
              (lit "depth-estimation") DEFAULT_MODEL_ID
              (selected_device env (trace w)) = Raise e) :
  let evs :=
    selection_events env (trace w)
    ++ [LogInfo (lit "Estimating depth for image: "
                   ++ format_pathlike image_path);
        PipelineNew (lit "depth-estimation") DEFAULT_MODEL_ID
          (selected_device env (trace w));
        LogError (lit "Failed to load model: " ++ exc_message e)] in
  estimate_depth env image_path w
  = (Raise e, MkWorld (trace w ++ evs) (S (allocated w)))
  /\ constructions evs = 1%nat
  /\ errors_logged evs = 1%nat
  /\ inferences evs = O.
Proof.
  cbv zeta. split.
  - rewrite estimate_depth_runs, call_runs. cbv zeta.
    rewrite Hexists. cbn [created model_id device]. rewrite Hfails.
    cbn [trace allocated at_call load_failed built model_id device].
    now rewrite <- !app_assoc.
  - rewrite constructions_app, errors_logged_app, inferences_app.
    rewrite constructions_selection_events.
    rewrite (proj1 (selection_events_quiet env (trace w))).
    rewrite (proj2 (selection_events_quiet env (trace w))).
    repeat split.
Qed.

Lemma estimate_depth_load_failure_witness :
  path_exists Samples.offline
    (trace (at_call Samples.offline (OfStr Samples.cat_png) Samples.fresh))
    (Path_ Samples.offline (OfStr Samples.cat_png)) = Ok true
  /\ estimate_depth Samples.offline (OfStr Samples.cat_png) Samples.fresh
     = (Raise Samples.connection_error, Samples.offline_failed).
Proof.
  split; [reflexivity |].
  apply (proj1 (estimate_depth_load_failure Samples.offline
                  (OfStr Samples.cat_png) Samples.fresh
                  Samples.connection_error eq_refl eq_refl)).
Defined.

(** X6. When the pipeline is built but raises on the image, the handler
    returns the supplied path with "Error during estimation: " and the
    exception's message; the pipeline was built once and run once, and
    nothing was logged as an error. *)
Theorem inference_failure_is_reported
  (env : Env) (image_fp : str) (w : World) (p : HFPipeline) (e : Exception)
  (Hexists : forall t, path_exists env t (Path_ env (OfStr image_fp)) = Ok true)
  (Hbuilt : forall t model d,
      transformers_pipeline env t (lit "depth-estimation") model d = Ok p)
  (Hcrash : forall t arg, pipeline_run env t p arg = Raise e) :
  exists evs,
    estimate_depth_wrapper env image_fp w =
      (Ok (image_fp,
           Message (lit "Error during estimation: " ++ exc_message e)),
       MkWorld (trace w ++ evs) (S (allocated w)))
    /\ constructions evs = 1%nat
    /\ inferences evs = 1%nat
    /\ errors_logged evs = O.
Proof.
  rewrite estimate_depth_wrapper_runs.
  rewrite (estimate_depth_when_built env (OfPath (Path_ env (OfStr image_fp)))
             w p Hexists Hbuilt).
  cbv zeta. rewrite Hcrash.
  destruct (after_inference_counts env (OfPath (Path_ env (OfStr image_fp))) w p)
    as (evs & -> & Hcounts).
  now exists evs.
Qed.

Lemma inference_failure_is_reported_witness :
  (forall t, path_exists Samples.crashing t
               (Path_ Samples.crashing (OfStr Samples.cat_png)) = Ok true)
  /\ exists evs,
       estimate_depth_wrapper Samples.crashing Samples.cat_png Samples.fresh =
         (Ok (Samples.cat_png,
              Message (lit "Error during estimation: out of memory")),
          MkWorld (trace Samples.fresh ++ evs) 1)
       /\ constructions evs = 1%nat
       /\ inferences evs = 1%nat
       /\ errors_logged evs = O.
Proof.
  split; [intros t; reflexivity |].
  apply (inference_failure_is_reported Samples.crashing Samples.cat_png
           Samples.fresh 7%nat Samples.out_of_memory).
  - intros t. reflexivity.
  - intros t model d. reflexivity.
  - intros t arg. reflexivity.
Defined.

(** X7. When the pipeline's answer has no "depth" entry, the lookup raises
    [KeyError] and the handler returns the supplied path with the text
    "Error during estimation: 'depth'". *)
Theorem missing_depth_entry_is_reported
  (env : Env) (image_fp : str) (w : World) (p : HFPipeline)
  (output : PipelineOutput)
  (Hexists : forall t, path_exists env t (Path_ env (OfStr image_fp)) = Ok true)
  (Hbuilt : forall t model d,
      transformers_pipeline env t (lit "depth-estimation") model d = Ok p)
  (Hanswer : forall t arg, pipeline_run env t p arg = Ok output)
  (Habsent : forallb (fun kv => negb (str_eqb (fst kv) (lit "depth"))) output
             = true) :
  getitem output (lit "depth") = Raise (KeyError (lit "depth"))
  /\ exists w',
       estimate_depth_wrapper env image_fp w =
         (Ok (image_fp, Message (lit "Error during estimation: 'depth'")), w').
Proof.
  pose proof (getitem_absent output (lit "depth") Habsent) as Hkey.
  split; [exact Hkey |].
  rewrite estimate_depth_wrapper_runs.
  rewrite (estimate_depth_when_built env (OfPath (Path_ env (OfStr image_fp)))
             w p Hexists Hbuilt).
  cbv zeta. rewrite Hanswer, Hkey. eexists. reflexivity.
Qed.

Lemma missing_depth_entry_is_reported_witness :
  forallb (fun kv => negb (str_eqb (fst kv) (lit "depth")))
    [(lit "predicted_depth", Samples.depth_2x3)] = true
  /\ exists w',
       estimate_depth_wrapper Samples.depthless Samples.cat_png Samples.fresh =
         (Ok (Samples.cat_png,
              Message (lit "Error during estimation: 'depth'")), w').
Proof.
  split; [reflexivity |].
  apply (proj2 (missing_depth_entry_is_reported Samples.depthless
                  Samples.cat_png Samples.fresh 7%nat
                  [(lit "predicted_depth", Samples.depth_2x3)]
                  (fun t => eq_refl) (fun t model d => eq_refl)
                  (fun t arg => eq_refl) eq_refl)).
Defined.



(** X9. For a path for which [Path.exists()] answers True, a pipeline
    that loads and answers a
    "depth" entry with at least one pixel and rows of [wd] pixels, the
    handler returns the supplied path with the colour image: as many rows as
    the depth map, [wd] pixels a row, 3 channels a pixel; the pipeline was
    built once and run once and nothing was logged as an error. *)
Theorem estimation_is_shown
  (env : Env) (image_fp : str) (w : World) (p : HFPipeline)
  (output : PipelineOutput) (depth : GrayImage) (wd : nat)
  (Hexists : forall t, path_exists env t (Path_ env (OfStr image_fp)) = Ok true)
  (Hbuilt : forall t model d,
      transformers_pipeline env t (lit "depth-estimation") model d = Ok p)
  (Hanswer : forall t arg, pipeline_run env t p arg = Ok output)
  (Hdepth : getitem output (lit "depth") = Ok depth)
  (Hrows : rows_of_width wd depth)
  (Hh : (0 < length depth)%nat) (Hwd : (0 < wd)%nat) :
  exists image evs,
    estimate_depth_wrapper env image_fp w =
      (Ok (image_fp, DepthMap image),
       MkWorld (trace w ++ evs) (S (allocated w)))
    /\ length image = length depth
    /\ rows_of_width3 wd 3 image
    /\ constructions evs = 1%nat
    /\ inferences evs = 1%nat
    /\ errors_logged evs = O.
Proof.
  destruct depth as [|row more]; [cbn in Hh; lia |].
  rewrite estimate_depth_wrapper_runs.
  rewrite (estimate_depth_when_built env (OfPath (Path_ env (OfStr image_fp)))
             w p Hexists Hbuilt).
  cbv zeta. rewrite Hanswer, Hdepth.
  destruct (after_inference_counts env (OfPath (Path_ env (OfStr image_fp))) w p)
    as (evs & -> & Hcounts).
  exists (color_image env (row :: more)), evs.
  split; [reflexivity |]. split; [apply length_map |].
  split; [| exact Hcounts].
  apply colorized_shape. exact Hrows.
Qed.

Lemma estimation_is_shown_witness :
  getitem [(lit "predicted_depth", []); (lit "depth", Samples.depth_2x3)]
    (lit "depth") = Ok Samples.depth_2x3
  /\ exists image evs,
       estimate_depth_wrapper Samples.laptop Samples.cat_png Samples.fresh =
         (Ok (Samples.cat_png, DepthMap image),
          MkWorld (trace Samples.fresh ++ evs) 1)
       /\ length image = 2%nat
       /\ rows_of_width3 3 3 image
       /\ constructions evs = 1%nat
       /\ inferences evs = 1%nat
       /\ errors_logged evs = O.
Proof.
  split; [reflexivity |].
  apply (estimation_is_shown Samples.laptop Samples.cat_png Samples.fresh 7%nat
           [(lit "predicted_depth", []); (lit "depth", Samples.depth_2x3)]
           Samples.depth_2x3 3).
  - intros t. reflexivity.
  - intros t model d. reflexivity.
  - intros t arg. reflexivity.
  - reflexivity.
  - repeat constructor.
  - cbn. lia.
  - lia.
Defined.

(** X10. [model_init_wrapper] has no handler: when [Path.exists()]
    answers False for /workspace/ice-festival.webp it raises
    [FileNotFoundError]
    naming [str(Path(...))] of it, after the device selection and the
    "Estimating depth for image: ..." entry. *)
Theorem model_init_wrapper_raises (env : Env) (w : World)
  (Hmissing :
     path_exists env
       (trace (at_call env (OfStr (lit "/workspace/ice-festival.webp")) w))
       (Path_ env (OfStr (lit "/workspace/ice-festival.webp"))) = Ok false) :
  model_init_wrapper env w =
    (Raise (FileNotFoundError
              (lit "Image file "
                 ++ normalize env (lit "/workspace/ice-festival.webp")
                 ++ lit " not found.")),
     MkWorld
       (trace w
        ++ selection_events env (trace w)
        ++ [LogInfo (lit "Estimating depth for image: /workspace/ice-festival.webp")])
       (S (allocated w))).
Proof.
  unfold model_init_wrapper. rewrite estimate_depth_runs, call_runs.
  cbv zeta. rewrite Hmissing. reflexivity.
Qed.

Lemma model_init_wrapper_raises_witness :
  path_exists Samples.laptop
    (trace (at_call Samples.laptop
              (OfStr (lit "/workspace/ice-festival.webp")) Samples.fresh))
    (Path_ Samples.laptop (OfStr (lit "/workspace/ice-festival.webp"))) = Ok false
  /\ model_init_wrapper Samples.laptop Samples.fresh =
       (Raise (FileNotFoundError
                 (lit "Image file /workspace/ice-festival.webp not found.")),
        MkWorld
          [MpsIsAvailable; CudaIsAvailable; LogInfo (lit "Using device: cpu");
           LogInfo (lit "Estimating depth for image: /workspace/ice-festival.webp")]
          1).
Proof.
  split; [reflexivity |].
  apply (model_init_wrapper_raises Samples.laptop Samples.fresh eq_refl).
Defined.

(** X12. [__init__] fixes the model and the device of the object: a later
    [__call__], in whatever world, does not select a device again, and when
    the file exists the first thing it does is to build the pipeline for the
    model given to [__init__] on the device selected then. *)
Theorem call_uses_what_init_fixed
  (env : Env) (model : str) (w0 : World) (image_path : PathLike) (w : World) :
  let self :=
    MkDepthAnythingPipeline (allocated w0) model
      (selected_device env (trace w0)) in
  fst (__init__ env model w0) = Ok self
  /\ exists evs,
       trace (snd (__call__ env self image_path w)) = trace w ++ evs
       /\ device_selections evs = O
       /\ (path_exists env (trace w) (Path_ env image_path) = Ok true ->
           exists rest,
             evs = PipelineNew (lit "depth-estimation") model
                     (selected_device env (trace w0)) :: rest).
Proof.
  cbv zeta. split; [now rewrite init_runs |].
  rewrite call_runs. cbv zeta.
  destruct (path_exists env (trace w) (Path_ env image_path)) as [[|]|e0].
  - cbn [model_id device].
    destruct (transformers_pipeline env (trace w) _ _ _) as [p|e];
      cbn [snd trace]; eexists; (split; [reflexivity |]);
      (split; [reflexivity |]); intros _; eexists; reflexivity.
  - exists []. cbn [snd]. rewrite app_nil_r.
    split; [reflexivity |]. split; [reflexivity | discriminate].
  - exists []. cbn [snd]. rewrite app_nil_r.
    split; [reflexivity |]. split; [reflexivity | discriminate].
Qed.

Lemma call_uses_what_init_fixed_witness :
  path_exists Samples.laptop [] (Path_ Samples.laptop (OfStr Samples.cat_png))
  = Ok true
  /\ exists evs,
       trace (snd (__call__ Samples.laptop
                     (MkDepthAnythingPipeline 0 (lit "some/model") cpu)
                     (OfStr Samples.cat_png) Samples.fresh))
       = [] ++ evs
       /\ device_selections evs = O
       /\ (path_exists Samples.laptop []
             (Path_ Samples.laptop (OfStr Samples.cat_png)) = Ok true ->
           exists rest,
             evs = PipelineNew (lit "depth-estimation") (lit "some/model") cpu
                     :: rest).
Proof.
  split; [reflexivity |].
  apply (proj2 (call_uses_what_init_fixed Samples.laptop (lit "some/model")
                  Samples.fresh (OfStr Samples.cat_png) Samples.fresh)).
Defined.

(** X13. An object keeps no pipeline between calls: two calls of the same
    [DepthAnythingPipeline] object on paths for which [Path.exists()]
    answers True build the pipeline twice, and create no object. *)
Theorem call_rebuilds_every_time
  (env : Env) (self : DepthAnythingPipeline) (first second : PathLike)
  (w : World)
  (Hfirst : forall t, path_exists env t (Path_ env first) = Ok true)
  (Hsecond : forall t, path_exists env t (Path_ env second) = Ok true) :
  let w1 := snd (__call__ env self first w) in
  let w2 := snd (__call__ env self second w1) in
  exists evs,
    trace w2 = trace w ++ evs
    /\ constructions evs = 2%nat
    /\ device_selections evs = O
    /\ allocated w2 = allocated w.
Proof.
  cbv zeta.
  destruct (call_effects env self first w)
    as (evs1 & Htrace1 & Halloc1 & Hsel1 & Hnew1).
  destruct (call_effects env self second (snd (__call__ env self first w)))
    as (evs2 & Htrace2 & Halloc2 & Hsel2 & Hnew2).
  rewrite Hfirst in Hnew1. rewrite Hsecond in Hnew2.
  exists (evs1 ++ evs2). repeat split.
  - now rewrite Htrace2, Htrace1, <- app_assoc.
  - now rewrite constructions_app, Hnew1, Hnew2.
  - now rewrite device_selections_app, Hsel1, Hsel2.
  - now rewrite Halloc2, Halloc1.
Qed.

Lemma call_rebuilds_every_time_witness :
  (forall t, path_exists Samples.laptop t
               (Path_ Samples.laptop (OfStr Samples.cat_png)) = Ok true)
  /\ exists evs,
       trace (snd (__call__ Samples.laptop Samples.a_pipeline
                     (OfStr Samples.cat_png)
                     (snd (__call__ Samples.laptop Samples.a_pipeline
                             (OfStr Samples.cat_png) Samples.fresh))))
       = trace Samples.fresh ++ evs
       /\ constructions evs = 2%nat
       /\ device_selections evs = O
       /\ allocated
            (snd (__call__ Samples.laptop Samples.a_pipeline
                    (OfStr Samples.cat_png)
                    (snd (__call__ Samples.laptop Samples.a_pipeline
                            (OfStr Samples.cat_png) Samples.fresh))))
          = allocated Samples.fresh.
Proof.
  split; [intros t; reflexivity |].
  apply (call_rebuilds_every_time Samples.laptop Samples.a_pipeline
           (OfStr Samples.cat_png) (OfStr Samples.cat_png) Samples.fresh).
  - intros t. reflexivity.
  - intros t. reflexivity.
Defined.

End AppMore.
